(** * Fresh-water recovery and reuse: the day-stepped simulation and the
      request handlers of the monitoring application

    A shallow embedding of [model.py] (the seasonal rainfall model, the
    water-balance calculators, the storage loop of [simulate] and its
    summary metrics) and of the two prediction handlers of [app.py].

    Conventions of the embedding.
    - A Python [float] is read as the real number it denotes and modelled
      by an exact rational ([Q]); rounding error of binary floating point is
      not modelled.  Integers that the source keeps as [int] (day numbers,
      [household_size], [simulation_days]) are [Z].
    - The module-level generator of Python's [random] is process-wide
      mutable state.  It is threaded explicitly: every function that touches
      it takes the generator state and returns the new one.  The generator
      itself (Mersenne Twister and the Gaussian transform) is library code
      and is kept abstract behind the class [Generator].
    - A Python exception is an explicit outcome ([Raise]).
    - Printing ([verbose]) has no effect on any computed value and is not
      modelled beyond the month index it computes. *)

From Stdlib Require Import ZArith QArith Qround Lqa Lia List Bool.
From stdpp Require Import gmap strings.
Import ListNotations.
Local Open Scope Q_scope.

(** ** Python numeric helpers *)

Module Py.

(** [max(a, b)]: the first argument wins ties. *)
Definition max (a b : Q) : Q := if Qlt_le_dec a b then b else a.

(** [min(a, b)]: the first argument wins ties. *)
Definition min (a b : Q) : Q := if Qlt_le_dec b a then b else a.

(** Rounding to the nearest integer, ties to the even neighbour. *)
Definition round_half_even (x : Q) : Z :=
  let f := Qfloor x in
  match Qcompare (x - inject_Z f) (1 # 2) with
  | Lt => f
  | Gt => (f + 1)%Z
  | Eq => if Z.even f then f else (f + 1)%Z
  end.

(** [round(x, ndigits)] on a float, for [ndigits >= 0]. *)
Definition round (x : Q) (ndigits : nat) : Q :=
  let scale := inject_Z (10 ^ Z.of_nat ndigits) in
  inject_Z (round_half_even (x * scale)) / scale.

(** [range(lo, hi)] for the loop [for day in range(1, n + 1)]. *)
Definition range1 (n : Z) : list Z := map Z.of_nat (seq 1 (Z.to_nat n)).

End Py.

(** ** Exceptions and the generator-state monad *)

Inductive exn : Type :=
| ZeroDivisionError
| KeyError.

Inductive outcome (A : Type) : Type :=
| Ok (a : A)
| Raise (e : exn).
Arguments Ok {A} a.
Arguments Raise {A} e.

(** The process-wide generator of [random]: its state, [random.seed(a)]
    (which replaces the whole state, whatever it was) and
    [random.gauss(mu, sigma)] (which returns a draw and advances it). *)
Class Generator : Type := {
  gen_state : Type;
  gen_seed : Z -> gen_state;
  gen_gauss : Q -> Q -> gen_state -> Q * gen_state
}.

(** A concrete generator for evaluating runs: the state counts the draws
    since the last seeding, and every draw returns the mean [mu]. *)
Definition mean_generator : Generator := {|
  gen_state := Z * nat;
  gen_seed := fun a => (a, O);
  gen_gauss := fun mu _ st => (mu, (fst st, S (snd st)))
|}.

Section Simulation.

Context {G : Generator}.

(** A computation that may raise and that reads and writes the
    process-wide generator. *)
Definition M (A : Type) : Type := gen_state -> outcome A * gen_state.

Definition ret {A} (a : A) : M A := fun g => (Ok a, g).

Definition raise {A} (e : exn) : M A := fun g => (Raise e, g).

Definition bind {A B} (m : M A) (k : A -> M B) : M B :=
  fun g =>
    match m g with
    | (Ok a, g') => k a g'
    | (Raise e, g') => (Raise e, g')
    end.

(** ** Configuration *)

Record Config : Type := {
  catchment_area_m2 : Q;
  rainfall_mm_per_day : Q;
  runoff_coefficient : Q;
  household_size : Z;
  daily_water_use_L : Q;
  greywater_fraction : Q;
  greywater_recovery_rate : Q;
  treatment_efficiency : Q;
  storage_capacity_L : Q;
  cost_per_litre_INR : Q;
  simulation_days : Z
}.

(** The module constant [CONFIG]. *)
Definition CONFIG : Config := {|
  catchment_area_m2 := 500;
  rainfall_mm_per_day := 80;
  runoff_coefficient := 85 # 100;
  household_size := 5;
  daily_water_use_L := 135;
  greywater_fraction := 65 # 100;
  greywater_recovery_rate := 75 # 100;
  treatment_efficiency := 92 # 100;
  storage_capacity_L := 40000;
  cost_per_litre_INR := 9 # 100;
  simulation_days := 365
|}.

(** The dictionary [MONTHLY_RAINFALL]; a key outside it is a [KeyError]. *)
Definition MONTHLY_RAINFALL (month : Z) : option Q :=
  match month with
  | 1%Z => Some (12 # 10) | 2%Z => Some (8 # 10) | 3%Z => Some 1
  | 4%Z => Some (21 # 10) | 5%Z => Some (35 # 10) | 6%Z => Some (42 # 10)
  | 7%Z => Some (58 # 10) | 8%Z => Some (61 # 10) | 9%Z => Some (73 # 10)
  | 10%Z => Some (85 # 10) | 11%Z => Some (92 # 10) | 12%Z => Some (41 # 10)
  | _ => None
  end.

(** ** Helper functions *)

(** Line 37: [min(12, max(1, (day_of_year // 30) + 1))]. *)
Definition month_of_day (day_of_year : Z) : Z :=
  Z.min 12 (Z.max 1 (day_of_year / 30 + 1)).

Definition get_monthly_rainfall (day_of_year : Z) (base : Q) : M Q :=
  fun g =>
    let month := month_of_day day_of_year in
    match MONTHLY_RAINFALL month with
    | None => (Raise KeyError, g)
    | Some v =>
        let factor := v / 5 in
        let (noise, g') := gen_gauss 1 (15 # 100) g in
        (Ok (Py.max 0 (base * factor * noise)), g')
    end.

Definition calculate_rainwater (rainfall_mm area_m2 rc : Q) : Q :=
  rainfall_mm * area_m2 * rc.

Definition calculate_greywater (hh : Z) (daily_use_L gw_frac gw_rec : Q) : Q :=
  let greywater_generated := inject_Z hh * daily_use_L * gw_frac in
  greywater_generated * gw_rec.

Definition apply_treatment (raw_litres efficiency : Q) : Q :=
  raw_litres * efficiency.

(** ** The day loop of [simulate] *)

(** One entry of [daily_log]. *)
Record DayRecord : Type := {
  day : Z;
  rainfall_L : Q;
  greywater_L : Q;
  treated_L : Q;
  storage_L : Q;
  deficit_L : Q
}.

(** The accumulators of [simulate] (lines 64-71). *)
Record Acc : Type := {
  total_rainwater : Q;
  total_greywater : Q;
  total_treated : Q;
  total_demand : Q;
  total_deficit : Q;
  total_overflow : Q;
  storage : Q;
  daily_log : list DayRecord
}.

Definition init_acc (c : Config) : Acc := {|
  total_rainwater := 0;
  total_greywater := 0;
  total_treated := 0;
  total_demand := 0;
  total_deficit := 0;
  total_overflow := 0;
  storage := storage_capacity_L c * (30 # 100);
  daily_log := []
|}.

(** The index into the month names that the [verbose] branch computes
    (line 100): [(day-1)//30 % 12]. *)
Definition verbose_month_index (day : Z) : Z := ((day - 1) / 30) mod 12.

(** Lines 75-108: the body of the loop after the day's rainfall [rf] has
    been drawn. *)
Definition day_update (c : Config) (day : Z) (rf : Q) (a : Acc) : Acc :=
  let rain_L := calculate_rainwater rf (catchment_area_m2 c) (runoff_coefficient c) in
  let grey_L := calculate_greywater (household_size c) (daily_water_use_L c)
                  (greywater_fraction c) (greywater_recovery_rate c) in
  let raw_in := rain_L + grey_L in
  let treated := apply_treatment raw_in (treatment_efficiency c) in
  let demand := inject_Z (household_size c) * daily_water_use_L c in
  let storage1 := storage a + treated in
  let over := Qlt_le_dec (storage_capacity_L c) storage1 in
  let total_overflow' :=
    if over then total_overflow a + (storage1 - storage_capacity_L c)
    else total_overflow a in
  let storage2 := if over then storage_capacity_L c else storage1 in
  let supply := Py.min storage2 demand in
  let deficit := Py.max 0 (demand - supply) in
  let storage3 := storage2 - supply in
  {| total_rainwater := total_rainwater a + rain_L;
     total_greywater := total_greywater a + grey_L;
     total_treated := total_treated a + treated;
     total_demand := total_demand a + demand;
     total_deficit := total_deficit a + deficit;
     total_overflow := total_overflow';
     storage := storage3;
     daily_log := daily_log a ++
       [ {| day := day; rainfall_L := rain_L; greywater_L := grey_L;
            treated_L := treated; storage_L := storage3;
            deficit_L := deficit |} ] |}.

(** Lines 74-108: one iteration. *)
Definition day_body (c : Config) (day : Z) (a : Acc) : M Acc :=
  bind (get_monthly_rainfall day (rainfall_mm_per_day c))
       (fun rf => ret (day_update c day rf a)).

(** The [for] loop over a list of days. *)
Fixpoint day_loop (c : Config) (days : list Z) (a : Acc) : M Acc :=
  match days with
  | [] => ret a
  | d :: rest => bind (day_body c d a) (day_loop c rest)
  end.

(** ** The result of [simulate] *)

Record SimulationResult : Type := {
  total_rainwater_L : Q;
  total_greywater_L : Q;
  total_treated_L : Q;
  total_demand_L : Q;
  total_deficit_L : Q;
  total_overflow_L : Q;
  supply_rate_pct : Q;
  annual_cost_saved_INR : Q;
  co2_offset_kg : Q;
  avg_daily_recovery_L : Q;
  self_sufficiency_pct : Q;
  result_daily_log : list DayRecord
}.

(** Lines 110-131.  A float division by zero raises. *)
Definition summarize (c : Config) (a : Acc) : outcome SimulationResult :=
  let total_supply := total_treated a in
  if Qeq_bool (total_demand a) 0 then Raise ZeroDivisionError else
  let supply_rate := total_supply / total_demand a * 100 in
  let annual_cost_saved := total_treated a * cost_per_litre_INR c in
  let co2_offset_kg := total_treated a * (1 # 1000) * (1 # 2) in
  if Z.eqb (simulation_days c) 0 then Raise ZeroDivisionError else
  let avg_daily_recovery := total_treated a / inject_Z (simulation_days c) in
  let self_sufficiency := Py.min 100 supply_rate in
  Ok {| total_rainwater_L := Py.round (total_rainwater a) 0;
        total_greywater_L := Py.round (total_greywater a) 0;
        total_treated_L := Py.round (total_treated a) 0;
        total_demand_L := Py.round (total_demand a) 0;
        total_deficit_L := Py.round (total_deficit a) 0;
        total_overflow_L := Py.round (total_overflow a) 0;
        supply_rate_pct := Py.round supply_rate 1;
        annual_cost_saved_INR := Py.round annual_cost_saved 2;
        co2_offset_kg := Py.round co2_offset_kg 1;
        avg_daily_recovery_L := Py.round avg_daily_recovery 0;
        self_sufficiency_pct := Py.round self_sufficiency 1;
        result_daily_log := daily_log a |}.

(** [simulate(config, verbose)]: line 60 reseeds the process-wide
    generator with the constant 42, whatever state [g0] it was in. *)
Definition simulate (c : Config) (verbose : bool) : M SimulationResult :=
  fun g0 =>
    let g := gen_seed 42 in
    match day_loop c (Py.range1 (simulation_days c)) (init_acc c) g with
    | (Ok a, g') => (summarize c a, g')
    | (Raise e, g') => (Raise e, g')
    end.

End Simulation.

(** ** Reading the run day by day *)

Section Run.

Context {G : Generator}.

(** One draw of the noise, as [get_monthly_rainfall] makes it. *)
Definition draw (g : gen_state) : gen_state := snd (gen_gauss 1 (15 # 100) g).

(** The generator after [n] such draws. *)
Fixpoint advance (n : nat) (g : gen_state) : gen_state :=
  match n with
  | O => g
  | S n' => advance n' (draw g)
  end.

(** The accumulators after the first [k] days of the loop. *)
Definition state_after (c : Config) (k : nat) : M Acc :=
  day_loop c (Py.range1 (Z.of_nat k)) (init_acc c).

End Run.

(** The documented domain of a configuration: fractions in [0,1]; area,
    capacity, rainfall, per-person use and household size non-negative; at
    least one day. *)
Record valid_config (c : Config) : Prop := {
  valid_area : 0 <= catchment_area_m2 c;
  valid_rainfall : 0 <= rainfall_mm_per_day c;
  valid_runoff : 0 <= runoff_coefficient c <= 1;
  valid_household : (0 <= household_size c)%Z;
  valid_use : 0 <= daily_water_use_L c;
  valid_fraction : 0 <= greywater_fraction c <= 1;
  valid_recovery : 0 <= greywater_recovery_rate c <= 1;
  valid_efficiency : 0 <= treatment_efficiency c <= 1;
  valid_capacity : 0 <= storage_capacity_L c;
  valid_days : (1 <= simulation_days c)%Z
}.

(** The demand of one day (line 80). *)
Definition daily_demand (c : Config) : Q :=
  inject_Z (household_size c) * daily_water_use_L c.

Definition with_household_size (c : Config) (hh : Z) : Config := {|
  catchment_area_m2 := catchment_area_m2 c;
  rainfall_mm_per_day := rainfall_mm_per_day c;
  runoff_coefficient := runoff_coefficient c;
  household_size := hh;
  daily_water_use_L := daily_water_use_L c;
  greywater_fraction := greywater_fraction c;
  greywater_recovery_rate := greywater_recovery_rate c;
  treatment_efficiency := treatment_efficiency c;
  storage_capacity_L := storage_capacity_L c;
  cost_per_litre_INR := cost_per_litre_INR c;
  simulation_days := simulation_days c
|}.

Definition with_days (c : Config) (n : Z) : Config := {|
  catchment_area_m2 := catchment_area_m2 c;
  rainfall_mm_per_day := rainfall_mm_per_day c;
  runoff_coefficient := runoff_coefficient c;
  household_size := household_size c;
  daily_water_use_L := daily_water_use_L c;
  greywater_fraction := greywater_fraction c;
  greywater_recovery_rate := greywater_recovery_rate c;
  treatment_efficiency := treatment_efficiency c;
  storage_capacity_L := storage_capacity_L c;
  cost_per_litre_INR := cost_per_litre_INR c;
  simulation_days := n
|}.

(** The scenario of the specification: [CONFIG] run for 30 days. *)
Definition scenario : Config := with_days CONFIG 30.

(** A dry roof and a thirsty household: no catchment, ten people at
    100 L each, a 1000 L tank, one day. *)
Definition thirsty : Config := {|
  catchment_area_m2 := 0;
  rainfall_mm_per_day := 80;
  runoff_coefficient := 85 # 100;
  household_size := 10;
  daily_water_use_L := 100;
  greywater_fraction := 1 # 2;
  greywater_recovery_rate := 1 # 2;
  treatment_efficiency := 1 # 2;
  storage_capacity_L := 1000;
  cost_per_litre_INR := 9 # 100;
  simulation_days := 1
|}.

(** [CONFIG] for one day with a negative catchment area and a treatment
    efficiency above 1: outside the documented domain. *)
Definition out_of_domain : Config := {|
  catchment_area_m2 := -500;
  rainfall_mm_per_day := 80;
  runoff_coefficient := 85 # 100;
  household_size := 5;
  daily_water_use_L := 135;
  greywater_fraction := 65 # 100;
  greywater_recovery_rate := 75 # 100;
  treatment_efficiency := 3 # 2;
  storage_capacity_L := 40000;
  cost_per_litre_INR := 9 # 100;
  simulation_days := 1
|}.

(** The month as the specification words it:
    [clamp(1, 12, floor((day_of_year - 1) / 30) + 1)]. *)
Definition spec_month (day_of_year : Z) : Z :=
  Z.max 1 (Z.min 12 ((day_of_year - 1) / 30 + 1)).

(** The bucket test of [print_monthly_breakdown] (line 221), for the
    0-based month [m]: [m*30 < d["day"] <= (m+1)*30]. *)
Definition in_month_bucket (m day : Z) : bool :=
  (m * 30 <? day)%Z && (day <=? (m + 1) * 30)%Z.

(** The tank holds between nothing and its capacity. *)
Definition tank_ok (c : Config) (a : Acc) : Prop :=
  0 <= storage a <= storage_capacity_L c.

(** The demand accumulated so far is the daily demand times the number of
    days logged. *)
Definition demand_counted (c : Config) (a : Acc) : Prop :=
  total_demand a == inject_Z (Z.of_nat (length (daily_log a))) * daily_demand c.

(** ** The prediction handlers of [app.py] *)

Module App.

Local Open Scope string_scope.

(** A Python float as the handlers pass it on: they do no arithmetic. *)
Inductive pyfloat : Type :=
| Finite (q : Q)
| Infinite (negative : bool)
| NaN.

(** The exceptions the handlers can meet. *)
Inductive pyexn : Type :=
| ValueError
| TypeError
| AttributeError.

(** A submitted value, read through the builtin [float]: either [float]
    converts it (a JSON number, a numeric string such as "7.2", a
    boolean), or [float] raises on it (the text "abc", the empty string,
    [null], a list). *)
Inductive field_value : Type :=
| Numeric (x : pyfloat)
| NonNumeric (e : pyexn).

Definition py_float (v : field_value) : pyexn + pyfloat :=
  match v with
  | Numeric x => inr x
  | NonNumeric e => inl e
  end.

(** [d.get(key, 0)]: the default [0] when the key is absent. *)
Definition get_or_zero (d : gmap string field_value) (key : string) : field_value :=
  match d !! key with
  | Some v => v
  | None => Numeric (Finite 0)
  end.

(** What [water_model.predict] returns: a dictionary that either has the
    key ['error'] or carries the prediction; or the call raises. *)
Record Prediction : Type := {
  prediction : Z;
  label : string;
  confidence : Q;
  probabilities : list (string * Q)
}.

Inductive ModelResult : Type :=
| ModelPrediction (p : Prediction)
| ModelError (msg : string)
| ModelRaised (e : pyexn).

(** The payload of an error answer: [str(e)] of a caught exception, or the
    classifier's own ['error'] text. *)
Inductive ErrorText : Type :=
| OfException (e : pyexn)
| OfModel (msg : string).

(** The four readings, in the order the handlers convert them. *)
Record Readings : Type := {
  ph : pyfloat;
  turbidity : pyfloat;
  temperature : pyfloat;
  tds : pyfloat
}.

(** Lines 71-74 and 186-189: the four conversions, the first failure
    raising. *)
Definition read_inputs (d : gmap string field_value) : pyexn + Readings :=
  match py_float (get_or_zero d "ph") with
  | inl e => inl e
  | inr ph =>
    match py_float (get_or_zero d "turbidity") with
    | inl e => inl e
    | inr turbidity =>
      match py_float (get_or_zero d "temperature") with
      | inl e => inl e
      | inr temperature =>
        match py_float (get_or_zero d "tds") with
        | inl e => inl e
        | inr tds =>
            inr {| ph := ph; turbidity := turbidity;
                   temperature := temperature; tds := tds |}
        end
      end
    end
  end.

(** The body of a request as [request.get_json()] returns it: an object,
    or anything else (on which [data.get] raises [AttributeError]). *)
Inductive JsonBody : Type :=
| JsonObject (fields : gmap string field_value)
| JsonOther.

(** The answer of [/api/predict]: the JSON of the classifier's dictionary
    or of [{'error': str(e)}]. *)
Inductive ApiResponse : Type :=
| ApiPrediction (p : Prediction)
| ApiError (t : ErrorText).

(** A row of the table [water_quality]. *)
Record Row : Type := {
  row_timestamp : string;
  row_readings : Readings;
  row_prediction : Z;
  row_label : string;
  row_confidence : Q
}.

(** The page [/predict] renders. *)
Inductive Page : Type :=
| ResultPage (p : Prediction) (r : Readings)
| ErrorPage (t : ErrorText).

Section Handlers.

(** [water_model.predict] is imported from a module that is not part of
    the sources at hand; the handlers are read for every classifier. *)
Variable water_model_predict : Readings -> ModelResult.

(** [api_predict] (lines 180-196). *)
Definition api_predict (body : JsonBody) : ApiResponse :=
  match body with
  | JsonOther => ApiError (OfException AttributeError)
  | JsonObject data =>
    match read_inputs data with
    | inl e => ApiError (OfException e)
    | inr r =>
      match water_model_predict r with
      | ModelPrediction p => ApiPrediction p
      | ModelError msg => ApiError (OfModel msg)
      | ModelRaised e => ApiError (OfException e)
      end
    end
  end.

(** [predict] (lines 66-110): the page, and the table after the call.
    The [INSERT] is taken to succeed: a failing one (a NaN reading is
    stored as NULL, which the [NOT NULL] columns refuse) and the
    connection it leaves open are outside this model. *)
Definition predict (form : gmap string field_value) (now : string)
    (db : list Row) : Page * list Row :=
  match read_inputs form with
  | inl e => (ErrorPage (OfException e), db)
  | inr r =>
    match water_model_predict r with
    | ModelError msg => (ErrorPage (OfModel msg), db)
    | ModelRaised e => (ErrorPage (OfException e), db)
    | ModelPrediction p =>
        (ResultPage p r,
         (db ++ [ {| row_timestamp := now; row_readings := r;
                     row_prediction := prediction p; row_label := label p;
                     row_confidence := confidence p |} ])%list)
    end
  end.

End Handlers.

(** Modelled from the spec: the classifier itself ([water_model.predict])
    is absent.  This stand-in answers with the rule by which
    [train_model.py] (lines 37-50) labels the data the classifier is
    trained on, over the three labels of the specification, with the whole
    probability on the chosen label.  It is used only to run the handlers
    on concrete requests. *)
Definition rule_classifier (r : Readings) : ModelResult :=
  match ph r, turbidity r, temperature r, tds r with
  | Finite p, Finite tu, Finite te, Finite td =>
      let within lo x hi := Qle_bool lo x && Qle_bool x hi in
      let below x hi := negb (Qle_bool hi x) in
      if within (65 # 10) p (85 # 10) && below tu 10 && within 15 te 30
         && below td 500
      then ModelPrediction
             {| prediction := 0; label := "Safe for Reuse"; confidence := 1;
                probabilities := [("Safe for Reuse", 1); ("Needs Treatment", 0);
                                  ("Unsafe", 0)] |}
      else if within 4 p 10 && below tu 50 && within 5 te 40 && below td 800
      then ModelPrediction
             {| prediction := 1; label := "Needs Treatment"; confidence := 1;
                probabilities := [("Safe for Reuse", 0); ("Needs Treatment", 1);
                                  ("Unsafe", 0)] |}
      else ModelPrediction
             {| prediction := 2; label := "Unsafe"; confidence := 1;
                probabilities := [("Safe for Reuse", 0); ("Needs Treatment", 0);
                                  ("Unsafe", 1)] |}
  | _, _, _, _ => ModelError "reading out of range"
  end.

(** The keys of the four readings. *)
Definition reading_keys : list string :=
  ["ph"; "turbidity"; "temperature"; "tds"].

(** The reading a missing key is replaced by. *)
Definition zero_readings : Readings :=
  {| ph := Finite 0; turbidity := Finite 0;
     temperature := Finite 0; tds := Finite 0 |}.

(** A request that carries no reading at all, and one that spells out
    four zeros. *)
Definition empty_request : gmap string field_value := ∅.

Definition zero_request : gmap string field_value :=
  <["ph" := Numeric (Finite 0)]>
    (<["turbidity" := Numeric (Finite 0)]>
       (<["temperature" := Numeric (Finite 0)]>
          (<["tds" := Numeric (Finite 0)]> ∅))).

End App.

(** ** The reports of [model.py] *)

(** Python's [sum] of [f d] over the elements [d] of a list: from 0, left
    to right. *)
Definition py_sum {A : Type} (f : A -> Q) (l : list A) : Q :=
  fold_left (fun acc d => acc + f d) l 0.

(** A line of the monthly report, before it is formatted. *)
Record MonthRow : Type := {
  month_index : Z;
  month_rain : Q;
  month_grey : Q;
  month_total : Q;
  month_cost : Q
}.

(** The records of month [m] (line 221). *)
Definition days_in_month (daily_log : list DayRecord) (m : Z) : list DayRecord :=
  List.filter (fun d => in_month_bucket m (day d)) daily_log.

(** The body of the loop of [print_monthly_breakdown] (lines 221-228): a
    month without records is skipped. *)
Definition month_row (daily_log : list DayRecord) (m : Z) : option MonthRow :=
  match days_in_month daily_log m with
  | [] => None
  | ds =>
      let rain := py_sum rainfall_L ds in
      let grey := py_sum greywater_L ds in
      let total := py_sum treated_L ds in
      let cost := total * (9 # 100) in
      Some {| month_index := m; month_rain := rain; month_grey := grey;
              month_total := total; month_cost := cost |}
  end.

(** [print_monthly_breakdown(daily_log)]: the lines it prints, for
    [m in range(12)]. *)
Definition print_monthly_breakdown (daily_log : list DayRecord) : list MonthRow :=
  flat_map (fun m => match month_row daily_log m with
                     | Some row => [row]
                     | None => []
                     end)
           (map Z.of_nat (seq 0 12)).

(** The litres of greywater recovered on any day (lines 76-77). *)
Definition daily_greywater (c : Config) : Q :=
  calculate_greywater (household_size c) (daily_water_use_L c)
    (greywater_fraction c) (greywater_recovery_rate c).

(** ** The labelling rule of [train_model.py] *)

(** Lines 37-50 of [generate_sample_data]: the label of one sample. *)
Definition sample_label (ph turbidity temperature tds : Q) : Z :=
  let within lo x hi := Qle_bool lo x && Qle_bool x hi in
  let below x hi := negb (Qle_bool hi x) in
  if within (65 # 10) ph (85 # 10) && below turbidity 10
     && within 15 temperature 30 && below tds 500
  then 0%Z
  else if within 4 ph 10 && below turbidity 50
          && within 5 temperature 40 && below tds 800
  then 1%Z
  else 2%Z.

(** The three conditions of the rule, as propositions. *)
Definition safe_region (ph turbidity temperature tds : Q) : Prop :=
  (65 # 10) <= ph <= (85 # 10) /\ turbidity < 10 /\
  15 <= temperature <= 30 /\ tds < 500.

Definition treatable_region (ph turbidity temperature tds : Q) : Prop :=
  4 <= ph <= 10 /\ turbidity < 50 /\ 5 <= temperature <= 40 /\ tds < 800.

(** ** The stored readings of [app.py] *)

Module Store.

(** [SUM(CASE WHEN label = l THEN 1 ELSE 0 END)], read with
    [... if ... else 0]: the number of rows with that label. *)
Definition count_label (l : string) (db : list App.Row) : Z :=
  Z.of_nat (length (List.filter (fun r => String.eqb (App.row_label r) l) db)).

(** The counts of [api_stats] (lines 198-233) and of [dashboard]; the
    averages of the same query are not modelled. *)
Record Counts : Type := {
  total : Z;
  safe_count : Z;
  treatment_count : Z;
  unsafe_count : Z
}.

Definition api_stats_counts (db : list App.Row) : Counts := {|
  total := Z.of_nat (length db);
  safe_count := count_label "Safe for Reuse" db;
  treatment_count := count_label "Needs Treatment" db;
  unsafe_count := count_label "Unsafe" db
|}.

(** The recovery figures of [dashboard] (lines 159-167). *)
Record Recovery : Type := {
  water_recovered : Z;
  water_treated : Z;
  water_reused : Z
}.

Definition dashboard_recovery (db : list App.Row) : Recovery :=
  let stats := api_stats_counts db in
  {| water_recovered := safe_count stats * 100;
     water_treated := treatment_count stats * 80;
     water_reused := safe_count stats * 85 |}.

End Store.

(** ** Facts about the helpers *)

Section Facts.

Context {G : Generator}.

Lemma max_nonneg x : 0 <= Py.max 0 x.
Proof. unfold Py.max. destruct (Qlt_le_dec 0 x); lra. Qed.

Lemma min_le_l a b : Py.min a b <= a.
Proof. unfold Py.min. destruct (Qlt_le_dec b a); lra. Qed.

Lemma min_le_r a b : Py.min a b <= b.
Proof. unfold Py.min. destruct (Qlt_le_dec b a); lra. Qed.

Lemma min_glb a b x : x <= a -> x <= b -> x <= Py.min a b.
Proof. unfold Py.min. destruct (Qlt_le_dec b a); lra. Qed.

Lemma month_of_day_range d : (1 <= month_of_day d <= 12)%Z.
Proof. unfold month_of_day. lia. Qed.

Lemma MONTHLY_RAINFALL_defined m :
  (1 <= m <= 12)%Z -> exists v, MONTHLY_RAINFALL m = Some v /\ 0 <= v.
Proof.
  intros Hm.
  assert (m = 1 \/ m = 2 \/ m = 3 \/ m = 4 \/ m = 5 \/ m = 6 \/ m = 7 \/
          m = 8 \/ m = 9 \/ m = 10 \/ m = 11 \/ m = 12)%Z as Hc by lia.
  repeat (destruct Hc as [-> | Hc]); try subst m;
    (eexists; split; [reflexivity | unfold Qle; simpl; lia]).
Qed.

(** The rainfall model never raises, draws exactly once, and returns
    [max(0, base * (factor / 5) * noise)], which is not negative. *)
Lemma get_monthly_rainfall_ok d base g :
  exists v,
    MONTHLY_RAINFALL (month_of_day d) = Some v /\
    get_monthly_rainfall d base g =
      (Ok (Py.max 0 (base * (v / 5) * fst (gen_gauss 1 (15 # 100) g))), draw g).
Proof.
  unfold get_monthly_rainfall, draw.
  destruct (MONTHLY_RAINFALL_defined _ (month_of_day_range d)) as (v & Hv & _).
  exists v. rewrite Hv. split; [reflexivity |].
  destruct (gen_gauss 1 (15 # 100) g) as [noise g']. reflexivity.
Qed.

Lemma day_body_ok c d a g :
  exists rf, 0 <= rf /\ day_body c d a g = (Ok (day_update c d rf a), draw g).
Proof.
  destruct (get_monthly_rainfall_ok d (rainfall_mm_per_day c) g) as (v & _ & Hrf).
  eexists; split; [apply max_nonneg |].
  unfold day_body, bind, ret. rewrite Hrf. reflexivity.
Qed.

Lemma day_loop_app c l1 l2 a g :
  day_loop c (l1 ++ l2) a g = bind (day_loop c l1 a) (day_loop c l2) g.
Proof.
  revert a g. induction l1 as [| d l1 IH]; intros a g; simpl.
  - reflexivity.
  - unfold bind.
    destruct (day_body c d a g) as [[a' | e] g']; [| reflexivity].
    rewrite IH. reflexivity.
Qed.

Lemma range1_succ k :
  Py.range1 (Z.of_nat (S k)) = Py.range1 (Z.of_nat k) ++ [Z.of_nat (S k)].
Proof.
  unfold Py.range1. rewrite !Nat2Z.id, seq_S, map_app. reflexivity.
Qed.

Lemma range1_length n : length (Py.range1 n) = Z.to_nat n.
Proof. unfold Py.range1. rewrite length_map, length_seq. reflexivity. Qed.

(** The loop never raises; an invariant of the body that holds at entry
    holds at exit, and the generator has advanced by one draw per day. *)
Lemma day_loop_invariant c (P : Acc -> Prop) :
  (forall d rf a, 0 <= rf -> P a -> P (day_update c d rf a)) ->
  forall days a g, P a ->
    exists a', day_loop c days a g = (Ok a', advance (length days) g) /\ P a'.
Proof.
  intros Hstep days. induction days as [| d rest IH]; intros a g Ha; simpl.
  - exists a. split; [reflexivity | exact Ha].
  - destruct (day_body_ok c d a g) as (rf & Hrf & Hbody).
    unfold bind. rewrite Hbody. apply IH. apply Hstep; assumption.
Qed.

(** Day [k+1] takes the state after [k] days to the state after [k+1]. *)
Lemma state_after_step c (P : Acc -> Prop) :
  (forall d rf a, 0 <= rf -> P a -> P (day_update c d rf a)) ->
  P (init_acc c) ->
  forall k g, exists a rf,
    P a /\ 0 <= rf /\
    state_after c k g = (Ok a, advance k g) /\
    state_after c (S k) g =
      (Ok (day_update c (Z.of_nat (S k)) rf a), advance (S k) g).
Proof.
  intros Hstep Hinit k g.
  destruct (day_loop_invariant c P Hstep (Py.range1 (Z.of_nat k)) (init_acc c) g Hinit)
    as (a & Hrun & Ha).
  rewrite range1_length, Nat2Z.id in Hrun.
  destruct (day_body_ok c (Z.of_nat (S k)) a (advance k g)) as (rf & Hrf & Hbody).
  exists a, rf. repeat split; try assumption.
  unfold state_after. rewrite range1_succ, day_loop_app.
  unfold bind. rewrite Hrun. simpl. unfold bind. rewrite Hbody. unfold ret.
  f_equal. clear. revert g. induction k as [| k IH]; intros g; simpl.
  - reflexivity.
  - apply IH.
Qed.

(** ** Facts about one day of the loop *)

Ltac open_valid V :=
  destruct V as [? ? [? ?] ? ? [? ?] [? ?] [? ?] ? ?].

Lemma inject_Z_nonneg z : (0 <= z)%Z -> 0 <= inject_Z z.
Proof. intros H. unfold Qle. simpl. lia. Qed.

Lemma daily_demand_nonneg c : valid_config c -> 0 <= daily_demand c.
Proof.
  intros V. open_valid V. unfold daily_demand.
  apply Qmult_le_0_compat; [apply inject_Z_nonneg |]; assumption.
Qed.

Lemma rainwater_nonneg c rf :
  valid_config c -> 0 <= rf ->
  0 <= calculate_rainwater rf (catchment_area_m2 c) (runoff_coefficient c).
Proof.
  intros V Hrf. open_valid V. unfold calculate_rainwater.
  apply Qmult_le_0_compat; [apply Qmult_le_0_compat |]; assumption.
Qed.

Lemma greywater_nonneg c :
  valid_config c ->
  0 <= calculate_greywater (household_size c) (daily_water_use_L c)
         (greywater_fraction c) (greywater_recovery_rate c).
Proof.
  intros V. open_valid V. unfold calculate_greywater.
  apply Qmult_le_0_compat; [apply Qmult_le_0_compat;
    [apply Qmult_le_0_compat; [apply inject_Z_nonneg |] |] |]; assumption.
Qed.

(** What one day does to the accumulators, for any configuration. *)
Lemma day_update_spec c d rf a :
  exists r,
    daily_log (day_update c d rf a) = daily_log a ++ [r] /\
    day r = d /\
    storage_L r = storage (day_update c d rf a) /\
    rainfall_L r =
      calculate_rainwater rf (catchment_area_m2 c) (runoff_coefficient c) /\
    greywater_L r =
      calculate_greywater (household_size c) (daily_water_use_L c)
        (greywater_fraction c) (greywater_recovery_rate c) /\
    treated_L r =
      apply_treatment (rainfall_L r + greywater_L r) (treatment_efficiency c) /\
    total_rainwater (day_update c d rf a) = total_rainwater a + rainfall_L r /\
    total_greywater (day_update c d rf a) = total_greywater a + greywater_L r /\
    total_treated (day_update c d rf a) = total_treated a + treated_L r /\
    total_demand (day_update c d rf a) = total_demand a + daily_demand c /\
    total_deficit (day_update c d rf a) = total_deficit a + deficit_L r /\
    0 <= deficit_L r.
Proof.
  eexists. repeat split; try apply max_nonneg.
Qed.

Ltac py_cases :=
  unfold Py.min, Py.max in *;
  repeat match goal with
         | |- context [Qlt_le_dec ?x ?y] => destruct (Qlt_le_dec x y)
         end.

(** The tank on one day, for any configuration: what comes in is stored,
    supplied or spilt. *)
Lemma day_update_tank c d rf a r :
  daily_log (day_update c d rf a) = daily_log a ++ [r] ->
  let filled := storage a + treated_L r in
  let clamped := Py.min (storage_capacity_L c) filled in
  let supply := Py.min clamped (daily_demand c) in
  deficit_L r == daily_demand c - supply /\
  storage_L r == clamped - supply /\
  total_overflow (day_update c d rf a) - total_overflow a == filled - clamped /\
  0 <= filled - clamped.
Proof.
  intros Hlog. apply app_inj_tail in Hlog as [_ <-]. simpl.
  fold (daily_demand c).
  set (treated := apply_treatment _ _).
  py_cases; repeat split; lra.
Qed.

Lemma init_tank_ok c : valid_config c -> tank_ok c (init_acc c).
Proof. intros V. open_valid V. unfold tank_ok. simpl. lra. Qed.

Lemma treated_nonneg c rf :
  valid_config c -> 0 <= rf ->
  0 <= apply_treatment
         (calculate_rainwater rf (catchment_area_m2 c) (runoff_coefficient c) +
          calculate_greywater (household_size c) (daily_water_use_L c)
            (greywater_fraction c) (greywater_recovery_rate c))
         (treatment_efficiency c).
Proof.
  intros V Hrf. unfold apply_treatment.
  pose proof (rainwater_nonneg c rf V Hrf). pose proof (greywater_nonneg c V).
  open_valid V. apply Qmult_le_0_compat; [lra | assumption].
Qed.

Lemma day_update_tank_ok c d rf a :
  valid_config c -> 0 <= rf -> tank_ok c a -> tank_ok c (day_update c d rf a).
Proof.
  intros V Hrf [Hlo Hhi].
  pose proof (treated_nonneg c rf V Hrf) as Ht.
  pose proof (daily_demand_nonneg c V) as Hd.
  open_valid V. unfold tank_ok. simpl. fold (daily_demand c).
  set (treated := apply_treatment _ _) in *.
  py_cases; split; lra.
Qed.

(** The log gains one record per day, numbered by the day. *)
Lemma day_loop_log c days :
  forall a g a' g',
    day_loop c days a g = (Ok a', g') ->
    map day (daily_log a') = map day (daily_log a) ++ days.
Proof.
  induction days as [| d rest IH]; intros a g a' g' Hrun; simpl in Hrun.
  - unfold ret in Hrun. inversion Hrun; subst. rewrite app_nil_r. reflexivity.
  - destruct (day_body_ok c d a g) as (rf & _ & Hbody).
    unfold bind in Hrun. rewrite Hbody in Hrun.
    apply IH in Hrun. rewrite Hrun. simpl.
    rewrite map_app, <- app_assoc. reflexivity.
Qed.

Lemma day_update_demand_counted c d rf a :
  demand_counted c a -> demand_counted c (day_update c d rf a).
Proof.
  unfold demand_counted. intros H. simpl. fold (daily_demand c).
  rewrite length_app. simpl. rewrite H.
  rewrite Nat2Z.inj_add, inject_Z_plus. simpl (inject_Z (Z.of_nat 1)). ring.
Qed.

(** ** Facts about rounding *)

Lemma round_half_even_proper x y :
  x == y -> Py.round_half_even x = Py.round_half_even y.
Proof.
  intros H. unfold Py.round_half_even.
  rewrite (Qfloor_comp x y H).
  assert (Qcompare (x - inject_Z (Qfloor y)) (1 # 2) =
          Qcompare (y - inject_Z (Qfloor y)) (1 # 2)) as ->
    by (apply Qcompare_comp; [rewrite H |]; reflexivity).
  reflexivity.
Qed.

Lemma round_proper x y n : x == y -> Py.round x n = Py.round y n.
Proof.
  intros H. unfold Py.round.
  set (scale := inject_Z (10 ^ Z.of_nat n)).
  rewrite (round_half_even_proper (x * scale) (y * scale)); [reflexivity |].
  rewrite H. reflexivity.
Qed.

Lemma round_half_even_ge m y :
  inject_Z m <= y -> (m <= Py.round_half_even y)%Z.
Proof.
  intros H. apply Qfloor_resp_le in H. rewrite Qfloor_Z in H.
  unfold Py.round_half_even.
  destruct (Qcompare _ _); [destruct (Z.even _) | |]; lia.
Qed.

Lemma round_half_even_le m y :
  y <= inject_Z m -> (Py.round_half_even y <= m)%Z.
Proof.
  intros H. pose proof (Qfloor_le y) as Hf.
  assert (Qfloor y <= m)%Z as Hfm by (rewrite Zle_Qle; lra).
  unfold Py.round_half_even.
  destruct (Qcompare (y - inject_Z (Qfloor y)) (1 # 2)) eqn:Hc.
  - apply Qeq_alt in Hc.
    assert (inject_Z (Qfloor y) < inject_Z m) as Hlt by lra.
    rewrite <- Zlt_Qlt in Hlt. destruct (Z.even _); lia.
  - assumption.
  - apply Qgt_alt in Hc.
    assert (inject_Z (Qfloor y) < inject_Z m) as Hlt by lra.
    rewrite <- Zlt_Qlt in Hlt. lia.
Qed.

(** A percentage between 0 and 100 stays there when rounded to one
    decimal. *)
Lemma round_percentage x : 0 <= x <= 100 -> 0 <= Py.round x 1 <= 100.
Proof.
  intros [Hlo Hhi]. unfold Py.round.
  change (inject_Z (10 ^ Z.of_nat 1)) with (inject_Z 10).
  pose proof (round_half_even_ge 0 (x * inject_Z 10)) as Hge.
  pose proof (round_half_even_le 1000 (x * inject_Z 10)) as Hle.
  assert (0 <= Py.round_half_even (x * inject_Z 10))%Z as H0.
  { apply Hge. change (inject_Z 0) with 0. change (inject_Z 10) with 10. lra. }
  assert (Py.round_half_even (x * inject_Z 10) <= 1000)%Z as H1.
  { apply Hle. change (inject_Z 1000) with 1000. change (inject_Z 10) with 10. lra. }
  rewrite Zle_Qle in H0, H1.
  change (inject_Z 0) with 0 in H0. change (inject_Z 1000) with 1000 in H1.
  change (inject_Z 10) with 10 in *.
  set (z := inject_Z (Py.round_half_even (x * 10))) in *.
  split.
  - apply Qle_shift_div_l; lra.
  - apply Qle_shift_div_r; lra.
Qed.

(** ** Facts about a whole run *)

(** [simulate] runs the loop from the generator seeded with 42, for any
    loop invariant [P]. *)
Lemma simulate_run c verbose g0 (P : Acc -> Prop) :
  (forall d rf a, 0 <= rf -> P a -> P (day_update c d rf a)) ->
  P (init_acc c) ->
  exists a,
    P a /\ demand_counted c a /\
    map day (daily_log a) = Py.range1 (simulation_days c) /\
    simulate c verbose g0 =
      (summarize c a, advance (Z.to_nat (simulation_days c)) (gen_seed 42)).
Proof.
  intros Hstep Hinit.
  destruct (day_loop_invariant c (fun a => P a /\ demand_counted c a))
    with (days := Py.range1 (simulation_days c)) (a := init_acc c)
         (g := gen_seed 42) as (a & Hrun & Ha & Hd).
  - intros d rf a Hrf [Ha Hd]. split;
      [apply Hstep; assumption | apply day_update_demand_counted; assumption].
  - split; [assumption |]. unfold demand_counted. simpl. ring.
  - exists a. repeat split; try assumption.
    + apply day_loop_log in Hrun. exact Hrun.
    + unfold simulate. rewrite Hrun, range1_length. reflexivity.
Qed.

Lemma summarize_zero_demand c a :
  total_demand a == 0 -> summarize c a = Raise ZeroDivisionError.
Proof.
  intros H. unfold summarize. apply Qeq_bool_iff in H. rewrite H. reflexivity.
Qed.

Lemma summarize_ok c a :
  ~ total_demand a == 0 -> simulation_days c <> 0%Z ->
  exists res,
    summarize c a = Ok res /\
    result_daily_log res = daily_log a /\
    total_demand_L res = Py.round (total_demand a) 0 /\
    total_deficit_L res = Py.round (total_deficit a) 0 /\
    supply_rate_pct res =
      Py.round (total_treated a / total_demand a * 100) 1 /\
    self_sufficiency_pct res =
      Py.round (Py.min 100 (total_treated a / total_demand a * 100)) 1.
Proof.
  intros Hd Hn. unfold summarize.
  destruct (Qeq_bool (total_demand a) 0) eqn:E.
  - apply Qeq_bool_iff in E. contradiction.
  - apply Z.eqb_neq in Hn. rewrite Hn. eexists. repeat split.
Qed.

(** The total demand of a run is zero exactly when no day is simulated or
    the daily demand is zero. *)
Lemma total_demand_zero c a :
  demand_counted c a ->
  map day (daily_log a) = Py.range1 (simulation_days c) ->
  (total_demand a == 0 <-> (simulation_days c < 1)%Z \/ daily_demand c == 0).
Proof.
  intros Hd Hlog.
  assert (length (daily_log a) = Z.to_nat (simulation_days c)) as Hlen.
  { rewrite <- (length_map day), Hlog. apply range1_length. }
  unfold demand_counted in Hd. rewrite Hlen in Hd. rewrite Hd. split.
  - intros H. apply Qmult_integral in H as [H | H]; [left | right; assumption].
    unfold Qeq in H. simpl in H. lia.
  - intros [H | H].
    + replace (Z.of_nat (Z.to_nat (simulation_days c))) with 0%Z by lia.
      change (inject_Z 0) with 0. ring.
    + rewrite H. ring.
Qed.

(** ** The claims about the simulation *)

(** C1 (as amended).  On every simulated day of a valid configuration,
    with [a] the accumulators at the start of the day and [r] the day's
    record: storage_after is at most storage_before plus the treated
    inflow, so on a day without deficit storage_after + deficit_today is
    within that bound; on a day with a deficit the tank ends empty and the
    deficit is at most the day's demand; and storage_after is at most the
    capacity. *)
Theorem conservation_per_day c :
  valid_config c ->
  forall (k : nat) (g : gen_state),
  exists a a' r,
    state_after c k g = (Ok a, advance k g) /\
    state_after c (S k) g = (Ok a', advance (S k) g) /\
    daily_log a' = daily_log a ++ [r] /\
    day r = Z.of_nat (S k) /\
    storage_L r = storage a' /\
    storage_L r <= storage a + treated_L r /\
    (deficit_L r == 0 ->
     storage_L r + deficit_L r <= storage a + treated_L r) /\
    (0 < deficit_L r ->
     storage_L r == 0 /\ deficit_L r <= daily_demand c) /\
    0 <= deficit_L r /\
    storage_L r <= storage_capacity_L c.
Proof.
  intros V k g.
  destruct (state_after_step c (tank_ok c)) with (k := k) (g := g)
    as (a & rf & Ha & Hrf & Hk & HSk).
  { intros d rf a Hrf Ha. apply day_update_tank_ok; assumption. }
  { apply init_tank_ok; assumption. }
  destruct (day_update_spec c (Z.of_nat (S k)) rf a)
    as (r & Hlog & Hday & Hsto & Hrain & Hgrey & Htr & _ & _ & _ & _ & _ & Hdpos).
  pose proof (day_update_tank c _ rf a r Hlog) as (Hdef & Hst & _ & _).
  pose proof (day_update_tank_ok c (Z.of_nat (S k)) rf a V Hrf Ha) as [_ Hcap].
  pose proof (daily_demand_nonneg c V) as Hdem.
  assert (0 <= treated_L r) as Htpos.
  { rewrite Htr, Hrain, Hgrey. apply treated_nonneg; assumption. }
  destruct Ha as [Hlo Hhi].
  assert (storage_L r <= storage a + treated_L r /\
          (0 < deficit_L r -> storage_L r == 0 /\ deficit_L r <= daily_demand c))
    as [Hle Hempty].
  { unfold Py.min in Hdef, Hst.
    destruct (Qlt_le_dec (storage a + treated_L r) (storage_capacity_L c));
      destruct (Qlt_le_dec (daily_demand c) _);
      (split; [lra | intros Hpos; split; lra]). }
  exists a, (day_update c (Z.of_nat (S k)) rf a), r.
  repeat split; try assumption.
  - intros Hzero. rewrite Hzero. lra.
  - apply Hempty. assumption.
  - apply Hempty. assumption.
  - rewrite Hsto. exact Hcap.
Qed.


(** C8.  For a valid configuration the cumulative rainwater, greywater,
    treated volume, demand and deficit do not decrease from one day of the
    loop to the next; the total demand of the run is the number of days
    times the daily demand, and whenever it is positive [simulate] returns
    a result whose [self_sufficiency_pct] lies between 0 and 100. *)
Theorem totals_monotone_and_bounded c :
  valid_config c ->
  (forall (k : nat) (g : gen_state),
   exists a a',
     state_after c k g = (Ok a, advance k g) /\
     state_after c (S k) g = (Ok a', advance (S k) g) /\
     total_rainwater a <= total_rainwater a' /\
     total_greywater a <= total_greywater a' /\
     total_treated a <= total_treated a' /\
     total_demand a <= total_demand a' /\
     total_deficit a <= total_deficit a') /\
  (forall (verbose : bool) (g : gen_state),
   exists a,
     simulate c verbose g =
       (summarize c a, advance (Z.to_nat (simulation_days c)) (gen_seed 42)) /\
     total_demand a == inject_Z (simulation_days c) * daily_demand c /\
     (0 < total_demand a ->
      exists res,
        summarize c a = Ok res /\ 0 <= self_sufficiency_pct res <= 100)).
Proof.
  intros V. split.
  - intros k g.
    destruct (state_after_step c (fun _ => True)) with (k := k) (g := g)
      as (a & rf & _ & Hrf & Hk & HSk); [trivial | trivial |].
    destruct (day_update_spec c (Z.of_nat (S k)) rf a)
      as (r & _ & _ & _ & Hrain & Hgrey & Htr & E1 & E2 & E3 & E4 & E5 & Hdef).
    exists a, (day_update c (Z.of_nat (S k)) rf a).
    rewrite E1, E2, E3, E4, E5.
    pose proof (rainwater_nonneg c rf V Hrf).
    pose proof (greywater_nonneg c V).
    pose proof (treated_nonneg c rf V Hrf).
    pose proof (daily_demand_nonneg c V).
    rewrite Htr, Hrain, Hgrey.
    repeat split; try assumption; lra.
  - intros verbose g.
    destruct (simulate_run c verbose g (fun a => 0 <= total_treated a))
      as (a & Ht & Hd & Hlog & Hsim).
    { intros d rf a Hrf Ha. simpl.
      pose proof (treated_nonneg c rf V Hrf). lra. }
    { simpl. lra. }
    exists a. split; [exact Hsim |].
    assert (total_demand a == inject_Z (simulation_days c) * daily_demand c) as Htot.
    { unfold demand_counted in Hd. rewrite Hd.
      rewrite <- (length_map day), Hlog, range1_length.
      rewrite Z2Nat.id; [reflexivity |]. open_valid V. lia. }
    split; [exact Htot |]. intros Hpos.
    destruct (summarize_ok c a) as (res & Hres & _ & _ & _ & _ & Hss).
    { lra. }
    { open_valid V. lia. }
    exists res. split; [exact Hres |]. rewrite Hss.
    apply round_percentage.
    assert (0 <= total_treated a / total_demand a * 100) as Hrate.
    { apply Qmult_le_0_compat; [| lra].
      apply Qle_shift_div_l; [assumption | lra]. }
    split; [apply min_glb; lra | apply min_le_l].
Qed.

Lemma scenario_valid : valid_config scenario.
Proof.
  constructor; simpl; try lia; try split; unfold Qle; simpl; lia.
Qed.

(** C7.  Thirty days of the scenario (the rainfall generator being
    whatever it is): [simulate] returns a result whose log has exactly 30
    records, numbered 1 to 30 in order, each with a stored volume between 0
    and 40000, and whose [total_demand_L] is 20250. *)
Theorem scenario_thirty_days (verbose : bool) (g : gen_state) :
  exists res,
    fst (simulate scenario verbose g) = Ok res /\
    length (result_daily_log res) = 30%nat /\
    map day (result_daily_log res) =
      [1; 2; 3; 4; 5; 6; 7; 8; 9; 10; 11; 12; 13; 14; 15; 16; 17; 18; 19; 20;
       21; 22; 23; 24; 25; 26; 27; 28; 29; 30]%Z /\
    Forall (fun r => 0 <= storage_L r <= 40000) (result_daily_log res) /\
    total_demand_L res == 20250.
Proof.
  destruct (simulate_run scenario verbose g
              (fun a => tank_ok scenario a /\
                        Forall (fun r => 0 <= storage_L r <= 40000) (daily_log a)))
    as (a & [_ Hall] & Hd & Hlog & Hsim).
  { intros d rf a Hrf [Ha Hall].
    pose proof (day_update_tank_ok scenario d rf a scenario_valid Hrf Ha) as Ha'.
    split; [exact Ha' |].
    destruct (day_update_spec scenario d rf a) as (r & -> & _ & Hsto & _).
    apply Forall_app. split; [exact Hall |].
    constructor; [| constructor]. rewrite Hsto. exact Ha'. }
  { split; [apply init_tank_ok, scenario_valid | constructor]. }
  assert (length (daily_log a) = 30%nat) as Hlen.
  { rewrite <- (length_map day), Hlog. reflexivity. }
  assert (total_demand a == 20250) as Htot.
  { unfold demand_counted in Hd. rewrite Hd, Hlen. reflexivity. }
  destruct (summarize_ok scenario a) as (res & Hres & Hrlog & Hdem & _).
  { rewrite Htot. discriminate. }
  { discriminate. }
  exists res. rewrite Hsim. simpl. rewrite Hrlog.
  repeat split; try assumption.
  rewrite Hdem, (round_proper _ 20250 0 Htot). reflexivity.
Qed.

(** C6 (as amended).  [simulate] checks nothing about the configuration
    and knows no configuration error: whatever the fields hold, inside
    their documented domain or not, a run of at least one day with a daily
    demand other than zero simulates every day and returns a full result,
    with one record per day. *)
Theorem simulate_validates_nothing (c : Config) (verbose : bool) (g : gen_state) :
  (1 <= simulation_days c)%Z ->
  ~ daily_demand c == 0 ->
  exists res,
    fst (simulate c verbose g) = Ok res /\
    map day (result_daily_log res) = Py.range1 (simulation_days c) /\
    length (result_daily_log res) = Z.to_nat (simulation_days c).
Proof.
  intros Hdays Hdemand.
  destruct (simulate_run c verbose g (fun _ => True))
    as (a & _ & Hd & Hlog & Hsim); [trivial | trivial |].
  pose proof (total_demand_zero c a Hd Hlog) as Hz.
  assert (~ total_demand a == 0) as E.
  { intros H. apply Hz in H as [H | H]; [lia | contradiction]. }
  assert (simulation_days c <> 0%Z) as Hnz by lia.
  destruct (summarize_ok c a E Hnz) as (res & Hres & Hrlog & _).
  exists res. rewrite Hsim. simpl. rewrite Hrlog.
  repeat split.
  - exact Hres.
  - exact Hlog.
  - rewrite <- (length_map day), Hlog. apply range1_length.
Qed.

(** C2 (the code at the failing input).  With [household_size = 0] the
    total demand is zero and [simulate] raises [ZeroDivisionError] after
    the loop: no result is returned, so no [supply_rate_pct] and no
    [total_deficit_L]. *)
Theorem zero_household_raises (c : Config) (verbose : bool) (g : gen_state) :
  simulate (with_household_size c 0) verbose g =
    (Raise ZeroDivisionError,
     advance (Z.to_nat (simulation_days c)) (gen_seed 42)).
Proof.
  destruct (simulate_run (with_household_size c 0) verbose g (fun _ => True))
    as (a & _ & Hd & Hlog & Hsim); [trivial | trivial |].
  rewrite Hsim. f_equal. apply summarize_zero_demand.
  apply (total_demand_zero _ a Hd Hlog). right.
  unfold daily_demand. simpl. ring.
Qed.

(** C5 (as amended).  Two calls of [simulate] with the same configuration
    return the same result, field for field, and leave the same generator
    behind, whatever state the process-wide generator was in before each
    call: the stream is that process-wide generator, reseeded with 42 at
    the start of the call and left advanced by one draw per day. *)
Theorem simulate_deterministic_on_global_stream
    (c : Config) (verbose : bool) (g1 g2 : gen_state) :
  simulate c verbose g1 = simulate c verbose g2 /\
  snd (simulate c verbose g1) =
    advance (Z.to_nat (simulation_days c)) (gen_seed 42).
Proof.
  split; [reflexivity |].
  destruct (simulate_run c verbose g1 (fun _ => True))
    as (a & _ & _ & _ & Hsim); [trivial | trivial |].
  rewrite Hsim. reflexivity.
Qed.

(** C10.  The result of [simulate] depends on the configuration only: not
    on the state of the process-wide generator at the call (so not on the
    order of calls, nor on draws made in between, nor on a seed the caller
    set beforehand), and not on [verbose]; the function has no seed
    argument. *)
Theorem simulate_depends_on_config_only
    (c : Config) (v1 v2 : bool) (g1 g2 : gen_state) :
  fst (simulate c v1 g1) = fst (simulate c v2 g2) /\
  fst (simulate c v2 (snd (simulate c v1 g1))) = fst (simulate c v1 g1) /\
  fst (simulate c v1 (draw g1)) = fst (simulate c v1 g1) /\
  forall s : Z, fst (simulate c v1 (gen_seed s)) = fst (simulate c v1 g1).
Proof. repeat split. Qed.

(** C3 (the code at the failing input).  On day 30 the rainfall model
    takes month 2, where the formula of the claim gives month 1 and where
    the two other places of the program that turn a day into a month (the
    verbose month name, the monthly breakdown) take January; the month of
    the code differs from that of the claim exactly on days 30, 60, ...,
    330.  The rainfall of day 30 is computed with February's factor. *)
Theorem month_of_day_thirty :
  month_of_day 30 = 2%Z /\ spec_month 30 = 1%Z /\
  verbose_month_index 30 = 0%Z /\ in_month_bucket 0 30 = true /\
  (forall d : Z,
     month_of_day d <> spec_month d <->
     (d mod 30 = 0 /\ 30 <= d <= 330)%Z) /\
  (forall (base : Q) (g : gen_state),
     get_monthly_rainfall 30 base g =
       (Ok (Py.max 0 (base * ((8 # 10) / 5) * fst (gen_gauss 1 (15 # 100) g))),
        draw g)).
Proof.
  split; [reflexivity |]. split; [reflexivity |]. split; [reflexivity |].
  split; [reflexivity |]. split.
  - intros d. unfold month_of_day, spec_month.
    Z.div_mod_to_equations. lia.
  - intros base g.
    destruct (get_monthly_rainfall_ok 30 base g) as (v & Hv & Hrf).
    change (month_of_day 30) with 2%Z in Hv. simpl in Hv.
    injection Hv as <-. exact Hrf.
Qed.

End Facts.

(** ** The claims at concrete runs *)

Lemma thirsty_valid : valid_config thirsty.
Proof.
  constructor; simpl; try lia; try split; unfold Qle; simpl; lia.
Qed.

(** C1, witness: the first day of the scenario. *)
Lemma conservation_per_day_witness :
  valid_config scenario /\
  exists r : DayRecord,
    day r = 1%Z /\
    storage_L r <= storage (init_acc scenario) + treated_L r /\
    storage_L r <= storage_capacity_L scenario.
Proof.
  split; [exact scenario_valid |].
  destruct (conservation_per_day (G := mean_generator) scenario scenario_valid
              0 (gen_seed 42))
    as (a & a' & r & H0 & _ & _ & Hday & _ & Hle & _ & _ & _ & Hcap).
  injection H0 as <-.
  exists r. repeat split; assumption.
Defined.

(** C1, counterexample: the one day of the thirsty household.  The tank
    starts at 300 L, 125 L of treated water come in, the demand of 1000 L
    empties the tank and leaves a deficit of 575 L: storage_after plus
    deficit_today is 575, above storage_before plus treated inflow, 425. *)
Lemma conservation_with_deficit_fails :
  valid_config thirsty /\
  exists res r,
    fst (simulate (G := mean_generator) thirsty false (gen_seed 0)) = Ok res /\
    result_daily_log res = [r] /\
    storage (init_acc thirsty) == 300 /\
    treated_L r == 125 /\ storage_L r == 0 /\ deficit_L r == 575 /\
    ~ storage_L r + deficit_L r <= storage (init_acc thirsty) + treated_L r.
Proof.
  split; [exact thirsty_valid |].
  eexists. eexists.
  split; [vm_compute; reflexivity |].
  split; [reflexivity |].
  repeat split; try reflexivity.
  vm_compute. intros H. apply H. reflexivity.
Qed.


(** C8, witness: the scenario. *)
Lemma totals_monotone_and_bounded_witness :
  valid_config scenario /\
  exists res,
    fst (simulate (G := mean_generator) scenario false (gen_seed 42)) = Ok res /\
    0 <= self_sufficiency_pct res <= 100.
Proof.
  split; [exact scenario_valid |].
  destruct (totals_monotone_and_bounded (G := mean_generator) scenario
              scenario_valid) as [_ Hrun].
  destruct (Hrun false (gen_seed 42)) as (a & Hsim & Htot & Hres).
  destruct Hres as (res & Hres & Hb).
  { rewrite Htot. reflexivity. }
  exists res. rewrite Hsim. split; [exact Hres | exact Hb].
Defined.

(** C5, counterexample: a caller that had seeded the process-wide
    generator with 7 finds it, after one call of [simulate], seeded with
    42 and one draw further: the stream of the run is the shared
    generator, not one of its own. *)
Lemma simulate_reseeds_shared_generator :
  snd (simulate (G := mean_generator) thirsty false (gen_seed 7)) =
    (42%Z, 1%nat) /\
  snd (simulate (G := mean_generator) thirsty false (gen_seed 7)) <>
    gen_seed (Generator := mean_generator) 7.
Proof. split; [reflexivity | discriminate]. Qed.

(** C6, counterexample: a negative catchment area and a treatment
    efficiency of 1.5 are simulated like any other values; the day is run
    and a full result comes back, with a negative harvest. *)
Lemma out_of_domain_is_simulated :
  ~ valid_config out_of_domain /\
  exists res r,
    fst (simulate (G := mean_generator) out_of_domain false (gen_seed 0)) =
      Ok res /\
    result_daily_log res = [r] /\ day r = 1%Z /\
    total_rainwater_L res == -8160.
Proof.
  split.
  - intros V. destruct V as [Harea]. revert Harea. vm_compute. intros H. apply H. reflexivity.
  - eexists. eexists. split; [vm_compute; reflexivity |].
    repeat split.
Qed.

(** C6, witness: the configuration outside the documented domain. *)
Lemma simulate_validates_nothing_witness :
  (1 <= simulation_days out_of_domain)%Z /\
  ~ daily_demand out_of_domain == 0 /\
  exists res,
    fst (simulate (G := mean_generator) out_of_domain false (gen_seed 0))
      = Ok res /\
    length (result_daily_log res) = 1%nat.
Proof.
  assert (1 <= simulation_days out_of_domain)%Z as Hdays by (simpl; lia).
  assert (~ daily_demand out_of_domain == 0) as Hdemand by discriminate.
  split; [exact Hdays |]. split; [exact Hdemand |].
  destruct (simulate_validates_nothing (G := mean_generator) out_of_domain
              false (gen_seed 0) Hdays Hdemand) as (res & Hres & _ & Hlen).
  exists res. split; [exact Hres | exact Hlen].
Defined.

(** ** The claims about the prediction handlers *)

Section HandlerFacts.

Variable classifier : App.Readings -> App.ModelResult.

Lemma get_or_zero_insert (d : gmap string App.field_value) key v k :
  App.get_or_zero (<[key := v]> d) k =
    if decide (key = k) then v else App.get_or_zero d k.
Proof.
  unfold App.get_or_zero. destruct (decide (key = k)) as [-> | Hne].
  - rewrite lookup_insert_eq. reflexivity.
  - rewrite lookup_insert_ne by assumption. reflexivity.
Qed.

(** Sending 0 for a reading that was missing changes nothing. *)
Lemma read_inputs_missing (d : gmap string App.field_value) key :
  d !! key = None ->
  App.read_inputs (<[key := App.Numeric (App.Finite 0)]> d) = App.read_inputs d.
Proof.
  intros Hnone.
  assert (forall k, App.get_or_zero (<[key := App.Numeric (App.Finite 0)]> d) k
                    = App.get_or_zero d k) as Hget.
  { intros k. rewrite get_or_zero_insert.
    destruct (decide (key = k)) as [<- | _]; [| reflexivity].
    unfold App.get_or_zero. rewrite Hnone. reflexivity. }
  unfold App.read_inputs. rewrite !Hget. reflexivity.
Qed.

(** A reading on which [float] raises makes the conversions raise. *)
Lemma read_inputs_non_numeric (d : gmap string App.field_value) key e :
  In key App.reading_keys ->
  exists e', App.read_inputs (<[key := App.NonNumeric e]> d) = inl e'.
Proof.
  intros Hkey. unfold App.read_inputs. rewrite !get_or_zero_insert.
  simpl in Hkey.
  destruct Hkey as [<- | [<- | [<- | [<- | []]]]]; simpl;
    repeat match goal with
           | |- context [App.py_float (App.get_or_zero d ?k)] =>
               destruct (App.py_float (App.get_or_zero d k))
           end;
    eexists; reflexivity.
Qed.

(** Readings that [float] converts reach the classifier as they are. *)
Lemma read_inputs_numeric (d : gmap string App.field_value) x1 x2 x3 x4 :
  d !! "ph"%string = Some (App.Numeric x1) ->
  d !! "turbidity"%string = Some (App.Numeric x2) ->
  d !! "temperature"%string = Some (App.Numeric x3) ->
  d !! "tds"%string = Some (App.Numeric x4) ->
  App.read_inputs d =
    inr {| App.ph := x1; App.turbidity := x2;
           App.temperature := x3; App.tds := x4 |}.
Proof.
  intros H1 H2 H3 H4. unfold App.read_inputs, App.get_or_zero.
  rewrite H1, H2, H3, H4. reflexivity.
Qed.

(** C9 (as amended).  For each of the four readings and every classifier:
    a value on which [float] raises gets an error answer from both
    handlers, never a classification, and nothing is stored; a reading
    that is missing is not an error: both handlers answer, and store,
    exactly what they do when 0 is sent for it. *)
Theorem handlers_on_malformed_and_missing
    (data : gmap string App.field_value) (key : string) :
  In key App.reading_keys ->
  (forall e, exists e',
     App.api_predict classifier (App.JsonObject (<[key := App.NonNumeric e]> data))
       = App.ApiError (App.OfException e') /\
     forall now db,
       App.predict classifier (<[key := App.NonNumeric e]> data) now db
         = (App.ErrorPage (App.OfException e'), db)) /\
  (data !! key = None ->
     App.api_predict classifier (App.JsonObject data) =
       App.api_predict classifier
         (App.JsonObject (<[key := App.Numeric (App.Finite 0)]> data)) /\
     forall now db,
       App.predict classifier data now db =
         App.predict classifier (<[key := App.Numeric (App.Finite 0)]> data) now db).
Proof.
  intros Hkey. split.
  - intros e. destruct (read_inputs_non_numeric data key e Hkey) as (e' & He').
    exists e'. unfold App.api_predict, App.predict. rewrite He'.
    split; [reflexivity | intros; reflexivity].
  - intros Hnone. unfold App.api_predict, App.predict.
    rewrite (read_inputs_missing data key Hnone).
    split; [reflexivity | intros; reflexivity].
Qed.

End HandlerFacts.

(** C9, witness: the reading ["ph"] of the empty request, with the
    stand-in classifier. *)
Lemma handlers_on_malformed_and_missing_witness :
  In "ph"%string App.reading_keys /\
  App.api_predict App.rule_classifier
    (App.JsonObject (<["ph"%string := App.NonNumeric App.ValueError]> App.empty_request))
    = App.ApiError (App.OfException App.ValueError) /\
  App.api_predict App.rule_classifier (App.JsonObject App.empty_request) =
    App.api_predict App.rule_classifier
      (App.JsonObject (<["ph"%string := App.Numeric (App.Finite 0)]> App.empty_request)).
Proof.
  assert (In "ph"%string App.reading_keys) as Hkey by (simpl; left; reflexivity).
  split; [exact Hkey |].
  destruct (handlers_on_malformed_and_missing App.rule_classifier
              App.empty_request "ph"%string Hkey) as [Hbad Hmiss].
  split.
  - destruct (Hbad App.ValueError) as (e' & He' & _).
    rewrite He'. vm_compute in He'. injection He' as <-. reflexivity.
  - apply Hmiss. reflexivity.
Defined.

(** C9, counterexample: a request that carries no reading at all is not
    answered with an error.  Its four readings are taken as 0, and both
    handlers answer as for the request that spells out four zeros; with the
    stand-in classifier that answer is the classification "Unsafe", and
    [/predict] stores it as a reading. *)
Lemma empty_request_is_classified :
  App.read_inputs App.empty_request = inr App.zero_readings /\
  App.read_inputs App.zero_request = inr App.zero_readings /\
  exists p,
    App.api_predict App.rule_classifier (App.JsonObject App.empty_request)
      = App.ApiPrediction p /\
    App.label p = "Unsafe"%string /\
    App.predict App.rule_classifier App.empty_request "now"%string []
      = (App.ResultPage p App.zero_readings,
         [ {| App.row_timestamp := "now"%string;
              App.row_readings := App.zero_readings;
              App.row_prediction := 2;
              App.row_label := "Unsafe"%string;
              App.row_confidence := 1 |} ]).
Proof.
  split; [reflexivity |]. split; [vm_compute; reflexivity |].
  eexists. split; [vm_compute; reflexivity |].
  split; reflexivity.
Qed.

Ltac py_branches :=
  unfold Py.min, Py.max in *;
  repeat match goal with
         | |- context [Qlt_le_dec ?x ?y] => destruct (Qlt_le_dec x y)
         end.

Ltac valid_fields V :=
  destruct V as [? ? [? ?] ? ? [? ?] [? ?] [? ?] ? ?].

(** ** Properties of the reports *)

Section ReportFacts.

Lemma py_sum_snoc {A : Type} (f : A -> Q) (l : list A) (x : A) :
  py_sum f (l ++ [x]) = py_sum f l + f x.
Proof. unfold py_sum. rewrite fold_left_app. reflexivity. Qed.

Lemma in_month_bucket_spec m d :
  in_month_bucket m d = true <-> (m * 30 < d <= (m + 1) * 30)%Z.
Proof. unfold in_month_bucket. rewrite andb_true_iff. lia. Qed.

(** The months of the loop of the report, [range(12)]. *)
Lemma In_months m :
  In m (map Z.of_nat (seq 0 12)) <-> (0 <= m < 12)%Z.
Proof.
  rewrite in_map_iff. split.
  - intros (n & <- & Hn). apply in_seq in Hn. lia.
  - intros Hm. exists (Z.to_nat m). split; [lia |]. apply in_seq. lia.
Qed.

Lemma months_NoDup : NoDup (map Z.of_nat (seq 0 12)).
Proof.
  apply NoDup_fmap_2; [intros x y; lia | apply NoDup_ListNoDup, seq_NoDup].
Qed.

(** A day is in some month of the report exactly when it is within
    1..360. *)
Lemma covered_by_months d :
  existsb (fun m => in_month_bucket m d) (map Z.of_nat (seq 0 12))
    = ((1 <=? d)%Z && (d <=? 360)%Z).
Proof.
  apply eq_true_iff_eq. rewrite existsb_exists, andb_true_iff. split.
  - intros (m & Hm & Hb). apply In_months in Hm.
    apply in_month_bucket_spec in Hb. lia.
  - intros [H1 H2]. exists ((d - 1) / 30)%Z. split.
    + apply In_months. Z.div_mod_to_equations. lia.
    + apply in_month_bucket_spec. Z.div_mod_to_equations. lia.
Qed.

Lemma month_row_columns log m row :
  month_row log m = Some row ->
  month_index row = m /\
  month_rain row = py_sum rainfall_L (days_in_month log m) /\
  month_grey row = py_sum greywater_L (days_in_month log m) /\
  month_total row = py_sum treated_L (days_in_month log m) /\
  month_cost row = month_total row * (9 # 100).
Proof.
  unfold month_row. destruct (days_in_month log m) as [| r ds]; [discriminate |].
  intros H. injection H as <-. repeat split.
Qed.

(** A record goes to at most one of the given months. *)
Lemma one_month_per_record (r : DayRecord) (f : Z -> list DayRecord)
    (ms : list Z) :
  NoDup ms ->
  Permutation
    (flat_map (fun m => if in_month_bucket m (day r) then r :: f m else f m) ms)
    ((if existsb (fun m => in_month_bucket m (day r)) ms then [r] else [])
     ++ flat_map f ms).
Proof.
  intros Hnd. induction Hnd as [| m ms Hnotin Hnd IH]; [reflexivity |].
  cbn [flat_map existsb].
  destruct (in_month_bucket m (day r)) eqn:Hm; cbn [orb].
  - replace (existsb (fun m0 => in_month_bucket m0 (day r)) ms) with false in IH.
    + cbn [app] in IH |- *. rewrite IH. reflexivity.
    + symmetry. apply not_true_iff_false. intros Hex.
      apply existsb_exists in Hex as (m' & Hin & Hm').
      apply in_month_bucket_spec in Hm, Hm'.
      assert (m' = m) as -> by lia. apply Hnotin.
      apply list_elem_of_In. exact Hin.
  - rewrite IH. destruct (existsb _ ms); cbn [app].
    + symmetry. apply Permutation_middle.
    + reflexivity.
Qed.

(** X1.  For any daily log, the twelve months of the monthly report take
    between them exactly the records whose day is within 1..360, each
    record into one month: the records of the months, put together, are
    those records up to order, and a record of day 361 or later (or of
    day 0 or less) is in no month. *)
Theorem monthly_breakdown_covers_days_1_to_360 (log : list DayRecord) :
  Permutation
    (flat_map (days_in_month log) (map Z.of_nat (seq 0 12)))
    (List.filter (fun r => (1 <=? day r)%Z && (day r <=? 360)%Z) log).
Proof.
  induction log as [| r log IH].
  - cbn [List.filter]. unfold days_in_month. cbn [List.filter].
    generalize (map Z.of_nat (seq 0 12)). intros ms.
    induction ms as [| m ms IHm]; [reflexivity | exact IHm].
  - transitivity
      ((if existsb (fun m => in_month_bucket m (day r)) (map Z.of_nat (seq 0 12))
        then [r] else [])
       ++ flat_map (days_in_month log) (map Z.of_nat (seq 0 12))).
    + assert (forall ms : list Z,
                flat_map (days_in_month (r :: log)) ms =
                flat_map (fun m => if in_month_bucket m (day r)
                                   then r :: days_in_month log m
                                   else days_in_month log m) ms) as E.
      { intros ms. apply flat_map_ext. intros m.
        unfold days_in_month. cbn [List.filter].
        destruct (in_month_bucket m (day r)); reflexivity. }
      rewrite E. apply one_month_per_record, months_NoDup.
    + rewrite covered_by_months. cbn [List.filter].
      destruct ((1 <=? day r)%Z && (day r <=? 360)%Z); cbn [app];
        rewrite IH; reflexivity.
Qed.

Lemma days_in_month_nil log m :
  days_in_month log m = [] <->
  existsb (fun r => in_month_bucket m (day r)) log = false.
Proof.
  unfold days_in_month. induction log as [| r log IH]; simpl.
  - tauto.
  - destruct (in_month_bucket m (day r)); simpl; [| exact IH].
    split; discriminate.
Qed.

(** The lines of the report. *)
Lemma monthly_lines (log : list DayRecord) :
  map month_index (print_monthly_breakdown log) =
    List.filter (fun m => existsb (fun r => in_month_bucket m (day r)) log)
                (map Z.of_nat (seq 0 12)).
Proof.
  unfold print_monthly_breakdown.
  generalize (map Z.of_nat (seq 0 12)). intros ms.
  induction ms as [| m ms IH]; [reflexivity |].
  simpl. rewrite map_app, IH.
  destruct (month_row log m) as [row |] eqn:Hrow.
  - pose proof (month_row_columns log m row Hrow) as (Hidx & _).
    unfold month_row in Hrow.
    destruct (existsb (fun r => in_month_bucket m (day r)) log) eqn:Hex.
    + simpl. rewrite Hidx. reflexivity.
    + apply days_in_month_nil in Hex. rewrite Hex in Hrow. discriminate.
  - unfold month_row in Hrow.
    destruct (days_in_month log m) eqn:Hd; [| discriminate].
    apply days_in_month_nil in Hd. rewrite Hd. reflexivity.
Qed.

(** X2.  The monthly report has a line for month [m] (0 for January to 11
    for December) exactly when some record of the log has
    [m*30 < day <= (m+1)*30], and the lines come in month order. *)
Theorem monthly_breakdown_lines (log : list DayRecord) :
  map month_index (print_monthly_breakdown log) =
    List.filter (fun m => existsb (fun r => in_month_bucket m (day r)) log)
                (map Z.of_nat (seq 0 12)).
Proof. exact (monthly_lines log). Qed.

End ReportFacts.

(** ** Further properties of the simulation *)

Section RunFacts.

Context {G : Generator}.

(** X4.  For every integer day, also 0, negative or beyond 365, the month
    is within 1..12, so the rainfall model never raises [KeyError]; it
    draws exactly once from the generator and returns a rainfall that is
    not negative. *)
Theorem rainfall_never_raises (d : Z) (base : Q) (g : gen_state) :
  (1 <= month_of_day d <= 12)%Z /\
  exists rf,
    get_monthly_rainfall d base g = (Ok rf, snd (gen_gauss 1 (15 # 100) g)) /\
    0 <= rf.
Proof.
  split; [apply month_of_day_range |].
  destruct (get_monthly_rainfall_ok d base g) as (v & _ & Hrf).
  eexists. split; [exact Hrf | apply max_nonneg].
Qed.

(** X6.  For any configuration, valid or not, the cumulative overflow and
    the cumulative deficit start at 0 and never decrease from one day to
    the next. *)
Theorem overflow_and_deficit_never_decrease (c : Config) (k : nat) (g : gen_state) :
  exists a a',
    state_after c k g = (Ok a, advance k g) /\
    state_after c (S k) g = (Ok a', advance (S k) g) /\
    0 <= total_overflow a <= total_overflow a' /\
    0 <= total_deficit a <= total_deficit a'.
Proof.
  destruct (state_after_step c
              (fun a => 0 <= total_overflow a /\ 0 <= total_deficit a))
    with (k := k) (g := g) as (a & rf & [Ho Hd] & _ & Hk & HSk).
  - intros d rf a _ [Ho Hd]. simpl.
    set (treated := apply_treatment _ _).
    set (demand := inject_Z _ * _).
    py_branches; split; lra.
  - simpl. split; lra.
  - exists a, (day_update c (Z.of_nat (S k)) rf a).
    split; [exact Hk |]. split; [exact HSk |]. simpl.
    set (treated := apply_treatment _ _).
    set (demand := inject_Z _ * _).
    py_branches; repeat split; lra.
Qed.

(** X7.  In the log of any run, for any configuration: a day's deficit is
    never negative, and a day that ends with a deficit ends with an empty
    tank. *)
Theorem deficit_leaves_tank_empty (c : Config) (k : nat) (g : gen_state) :
  exists a,
    state_after c k g = (Ok a, advance k g) /\
    Forall (fun r => 0 <= deficit_L r /\ (0 < deficit_L r -> storage_L r == 0))
           (daily_log a).
Proof.
  destruct (day_loop_invariant c
              (fun a => Forall (fun r => 0 <= deficit_L r /\
                                         (0 < deficit_L r -> storage_L r == 0))
                               (daily_log a)))
    with (days := Py.range1 (Z.of_nat k)) (a := init_acc c) (g := g)
    as (a & Hrun & Ha).
  - intros d rf a _ Ha. simpl. apply Forall_app. split; [exact Ha |].
    constructor; [| constructor]. simpl.
    set (treated := apply_treatment _ _).
    set (demand := inject_Z _ * _).
    py_branches; (split; [lra | intros Hpos; lra]).
  - constructor.
  - exists a. rewrite range1_length, Nat2Z.id in Hrun. split; assumption.
Qed.

(** X8.  In the log of any run, for any configuration, every record
    carries the same greywater volume, that of the configuration, and its
    treated volume is the treatment efficiency applied to its rainwater
    plus its greywater. *)
Theorem log_records_are_consistent (c : Config) (k : nat) (g : gen_state) :
  exists a,
    state_after c k g = (Ok a, advance k g) /\
    Forall (fun r =>
              greywater_L r = daily_greywater c /\
              treated_L r =
                apply_treatment (rainfall_L r + greywater_L r)
                                (treatment_efficiency c))
           (daily_log a).
Proof.
  destruct (day_loop_invariant c
              (fun a =>
                 Forall (fun r =>
                           greywater_L r = daily_greywater c /\
                           treated_L r =
                             apply_treatment (rainfall_L r + greywater_L r)
                                             (treatment_efficiency c))
                        (daily_log a)))
    with (days := Py.range1 (Z.of_nat k)) (a := init_acc c) (g := g)
    as (a & Hrun & Ha).
  - intros d rf a _ Ha. simpl. apply Forall_app. split; [exact Ha |].
    constructor; [| constructor]. split; reflexivity.
  - constructor.
  - rewrite range1_length, Nat2Z.id in Hrun. exists a. split; assumption.
Qed.

(** X9.  The log carries the totals: after any number of days of any
    configuration, each of the rainwater, greywater, treated and deficit
    totals is the sum of its column of [daily_log], and the tank holds
    what the last record says (the initial 30% when the log is empty). *)
Theorem totals_are_log_sums (c : Config) (k : nat) (g : gen_state) :
  exists a,
    state_after c k g = (Ok a, advance k g) /\
    total_rainwater a == py_sum rainfall_L (daily_log a) /\
    total_greywater a == py_sum greywater_L (daily_log a) /\
    total_treated a == py_sum treated_L (daily_log a) /\
    total_deficit a == py_sum deficit_L (daily_log a) /\
    storage a =
      List.last (map storage_L (daily_log a)) (storage_capacity_L c * (30 # 100)).
Proof.
  destruct (day_loop_invariant c
              (fun a =>
                 total_rainwater a == py_sum rainfall_L (daily_log a) /\
                 total_greywater a == py_sum greywater_L (daily_log a) /\
                 total_treated a == py_sum treated_L (daily_log a) /\
                 total_deficit a == py_sum deficit_L (daily_log a) /\
                 storage a =
                   List.last (map storage_L (daily_log a))
                        (storage_capacity_L c * (30 # 100))))
    with (days := Py.range1 (Z.of_nat k)) (a := init_acc c) (g := g)
    as (a & Hrun & Ha).
  - intros d rf a _ (H1 & H2 & H3 & H4 & H5). simpl.
    rewrite !py_sum_snoc, map_app. cbn [map]. rewrite List.last_last. simpl.
    rewrite H1, H2, H3, H4. repeat split; reflexivity.
  - simpl. repeat split; reflexivity.
  - rewrite range1_length, Nat2Z.id in Hrun. exists a. split; assumption.
Qed.

(** X10.  For a valid configuration no record of the log shows more in the
    tank than the capacity less the day's demand (nothing, when the demand
    is the capacity or more), and no day's deficit exceeds the day's
    demand. *)
Theorem end_of_day_storage_bound (c : Config) :
  valid_config c ->
  forall (k : nat) (g : gen_state),
  exists a,
    state_after c k g = (Ok a, advance k g) /\
    Forall (fun r =>
              storage_L r <= storage_capacity_L c
                             - Py.min (storage_capacity_L c) (daily_demand c) /\
              deficit_L r <= daily_demand c)
           (daily_log a).
Proof.
  intros V k g.
  destruct (day_loop_invariant c
              (fun a =>
                 tank_ok c a /\
                 Forall (fun r =>
                           storage_L r <= storage_capacity_L c
                             - Py.min (storage_capacity_L c) (daily_demand c) /\
                           deficit_L r <= daily_demand c)
                        (daily_log a)))
    with (days := Py.range1 (Z.of_nat k)) (a := init_acc c) (g := g)
    as (a & Hrun & _ & Ha).
  - intros d rf a Hrf [Hok Hall].
    split; [apply day_update_tank_ok; assumption |].
    simpl. apply Forall_app. split; [exact Hall |].
    constructor; [| constructor]. simpl. fold (daily_demand c).
    pose proof (treated_nonneg c rf V Hrf) as Ht.
    pose proof (daily_demand_nonneg c V) as Hd.
    destruct Hok as [Hlo Hhi]. valid_fields V.
    set (treated := apply_treatment _ _) in *.
    py_branches; split; lra.
  - split; [apply init_tank_ok; exact V | constructor].
  - rewrite range1_length, Nat2Z.id in Hrun. exists a. split; assumption.
Qed.

(** X11.  The index into the twelve month names of the verbose line is
    within 0..11 for every day, so the lookup never fails; on the days on
    which the line is printed (multiples of 30) the name is that of month
    [(day/30 - 1) mod 12], which wraps to January again after day 360. *)
Theorem verbose_month_in_range (d : Z) :
  (0 <= verbose_month_index d < 12)%Z /\
  verbose_month_index (30 * d) = ((d - 1) mod 12)%Z.
Proof.
  unfold verbose_month_index. split.
  - apply Z.mod_pos_bound. lia.
  - f_equal. Z.div_mod_to_equations. lia.
Qed.

(** Rounding keeps the order. *)
Lemma round_half_even_mono x y :
  x <= y -> (Py.round_half_even x <= Py.round_half_even y)%Z.
Proof.
  intros Hxy.
  pose proof (Qfloor_le x) as Hx1. pose proof (Qlt_floor x) as Hx2.
  pose proof (Qfloor_le y) as Hy1. pose proof (Qlt_floor y) as Hy2.
  pose proof (Qfloor_resp_le x y Hxy) as Hf.
  rewrite inject_Z_plus in Hx2, Hy2.
  change (inject_Z 1) with 1 in Hx2, Hy2.
  destruct (Z.eq_dec (Qfloor x) (Qfloor y)) as [E | E].
  - unfold Py.round_half_even. rewrite <- E in *.
    destruct (Qcompare (x - inject_Z (Qfloor x)) (1 # 2)) eqn:Cx;
      destruct (Qcompare (y - inject_Z (Qfloor x)) (1 # 2)) eqn:Cy;
      try (apply (proj2 (Qeq_alt _ _)) in Cx);
      try (apply (proj2 (Qlt_alt _ _)) in Cx);
      try (apply (proj2 (Qgt_alt _ _)) in Cx);
      try (apply (proj2 (Qeq_alt _ _)) in Cy);
      try (apply (proj2 (Qlt_alt _ _)) in Cy);
      try (apply (proj2 (Qgt_alt _ _)) in Cy);
      try (destruct (Z.even (Qfloor x))); try lia; exfalso; lra.
  - assert (Py.round_half_even x <= Qfloor x + 1)%Z as Hux.
    { unfold Py.round_half_even.
      destruct (Qcompare _ _); [destruct (Z.even _) | |]; lia. }
    assert (Qfloor y <= Py.round_half_even y)%Z as Hly.
    { unfold Py.round_half_even.
      destruct (Qcompare _ _); [destruct (Z.even _) | |]; lia. }
    lia.
Qed.

Lemma round_scale_pos n : 0 < inject_Z (10 ^ Z.of_nat n).
Proof.
  change 0 with (inject_Z 0). rewrite <- Zlt_Qlt.
  apply Z.pow_pos_nonneg; lia.
Qed.

Lemma round_mono x y n : x <= y -> Py.round x n <= Py.round y n.
Proof.
  intros Hxy. unfold Py.round.
  pose proof (round_scale_pos n) as Hs.
  set (scale := inject_Z (10 ^ Z.of_nat n)) in *.
  assert (x * scale <= y * scale) as Hm
    by (apply Qmult_le_compat_r; [exact Hxy | lra]).
  apply round_half_even_mono in Hm. rewrite Zle_Qle in Hm.
  unfold Qdiv. apply Qmult_le_compat_r; [exact Hm |].
  apply Qinv_le_0_compat. lra.
Qed.

(** What [summarize] returns when it returns. *)
Lemma summarize_returns c a res :
  summarize c a = Ok res ->
  supply_rate_pct res = Py.round (total_treated a / total_demand a * 100) 1 /\
  self_sufficiency_pct res =
    Py.round (Py.min 100 (total_treated a / total_demand a * 100)) 1 /\
  result_daily_log res = daily_log a.
Proof.
  unfold summarize.
  destruct (Qeq_bool (total_demand a) 0); [discriminate |].
  destruct (Z.eqb (simulation_days c) 0); [discriminate |].
  intros H. injection H as <-. repeat split.
Qed.

(** X12.  Whenever [simulate] returns a result, for any configuration, the
    returned [self_sufficiency_pct] is the returned [supply_rate_pct]
    capped at 100: rounding to one decimal and capping commute.  In
    particular it never exceeds 100 nor the supply rate. *)
Theorem self_sufficiency_is_capped_supply_rate
    (c : Config) (verbose : bool) (g : gen_state) (res : SimulationResult) :
  fst (simulate c verbose g) = Ok res ->
  self_sufficiency_pct res == Py.min 100 (supply_rate_pct res) /\
  self_sufficiency_pct res <= 100 /\
  self_sufficiency_pct res <= supply_rate_pct res.
Proof.
  intros Hsim.
  destruct (simulate_run c verbose g (fun _ => True))
    as (a & _ & _ & _ & Hrun); [trivial | trivial |].
  rewrite Hrun in Hsim. simpl in Hsim.
  apply summarize_returns in Hsim as (Hrate & Hself & _).
  rewrite Hrate, Hself.
  set (rate := total_treated a / total_demand a * 100).
  assert (Py.round 100 1 == 100) as H100 by reflexivity.
  assert (Py.round (Py.min 100 rate) 1 <= 100) as Hcap.
  { pose proof (round_mono (Py.min 100 rate) 100 1 (min_le_l 100 rate)). lra. }
  assert (Py.round (Py.min 100 rate) 1 <= Py.round rate 1) as Hle
    by apply round_mono, min_le_r.
  split; [| split; assumption].
  unfold Py.min at 1 2.
  destruct (Qlt_le_dec rate 100) as [Hlt | Hge].
  - destruct (Qlt_le_dec (Py.round rate 1) 100) as [_ | Hbig]; [reflexivity |].
    assert (Py.round rate 1 <= 100) as Hsmall.
    { assert (rate <= 100) as Hr by lra.
      pose proof (round_mono rate 100 1 Hr). lra. }
    lra.
  - destruct (Qlt_le_dec (Py.round rate 1) 100) as [Hsmall | _]; [| exact H100].
    assert (100 <= Py.round rate 1) as Hbig.
    { pose proof (round_mono 100 rate 1 Hge). lra. }
    lra.
Qed.

Lemma nth_error_seq_from (s n i : nat) :
  nth_error (seq s n) i = if (i <? n)%nat then Some (s + i)%nat else None.
Proof.
  revert s i. induction n as [| n IH]; intros s i.
  - destruct i; reflexivity.
  - destruct i as [| i]; simpl.
    + rewrite Nat.add_0_r. reflexivity.
    + rewrite IH. change (S i <? S n)%nat with (i <? n)%nat.
      destruct (i <? n)%nat; [| reflexivity]. f_equal. lia.
Qed.

(** X13.  In the log of a run of any length, for any configuration, the
    record at position [i] (from 0) is that of day [i+1], and it is among
    the records of month [m] of the monthly report exactly when
    [i // 30 = m]; so the twelve months take the first 360 records, and a
    record from position 360 on (the last five days of a run of 365) is
    in none of them. *)
Theorem monthly_breakdown_of_a_run (c : Config) (k : nat) (g : gen_state) :
  exists a,
    state_after c k g = (Ok a, advance k g) /\
    forall (i : nat) (r : DayRecord),
      nth_error (daily_log a) i = Some r ->
      day r = Z.of_nat (S i) /\
      (forall m : Z,
         In r (days_in_month (daily_log a) m) <-> (Z.of_nat i / 30 = m)%Z) /\
      ((360 <= i)%nat ->
       forall m : Z, In m (map Z.of_nat (seq 0 12)) ->
                     ~ In r (days_in_month (daily_log a) m)).
Proof.
  destruct (day_loop_invariant c (fun _ => True))
    with (days := Py.range1 (Z.of_nat k)) (a := init_acc c) (g := g)
    as (a & Hrun & _); [trivial | trivial |].
  pose proof (day_loop_log c _ _ _ _ _ Hrun) as Hlog. simpl in Hlog.
  unfold Py.range1 in Hlog. rewrite Nat2Z.id in Hlog.
  rewrite range1_length, Nat2Z.id in Hrun.
  exists a. split; [exact Hrun |]. intros i r Hi.
  assert (day r = Z.of_nat (S i)) as Hday.
  { pose proof (f_equal (fun l => nth_error l i) Hlog) as H. cbn beta in H.
    rewrite !nth_error_map, Hi, nth_error_seq_from in H.
    destruct (i <? k)%nat; [| discriminate].
    simpl in H. injection H as ->. reflexivity. }
  assert (forall m : Z,
            In r (days_in_month (daily_log a) m) <-> (Z.of_nat i / 30 = m)%Z)
    as Hmonth.
  { intros m. unfold days_in_month. rewrite filter_In, in_month_bucket_spec, Hday.
    split.
    - intros [_ Hb]. Z.div_mod_to_equations. lia.
    - intros Hm. split; [apply nth_error_In with i; exact Hi |].
      Z.div_mod_to_equations. lia. }
  split; [exact Hday |]. split; [exact Hmonth |].
  intros Hlate m Hm Hin. apply In_months in Hm. apply Hmonth in Hin.
  Z.div_mod_to_equations. lia.
Qed.

Lemma scale_within (x e : Q) : 0 <= x -> 0 <= e <= 1 -> 0 <= x * e <= x.
Proof.
  intros Hx [He0 He1]. split.
  - apply Qmult_le_0_compat; assumption.
  - assert (e * x <= 1 * x) as H
      by (apply Qmult_le_compat_r; assumption).
    lra.
Qed.

(** X14.  For a valid configuration treatment only loses water and
    recovery takes only part of the use, day by day: in every record of
    the log the rainwater is not negative, the greywater is between 0 and
    the day's demand, and the treated volume is between 0 and the
    rainwater plus the greywater. *)
Theorem treatment_only_loses (c : Config) :
  valid_config c ->
  forall (k : nat) (g : gen_state),
  exists a,
    state_after c k g = (Ok a, advance k g) /\
    Forall (fun r =>
              0 <= rainfall_L r /\
              0 <= greywater_L r <= daily_demand c /\
              0 <= treated_L r <= rainfall_L r + greywater_L r)
           (daily_log a).
Proof.
  intros V k g.
  destruct (day_loop_invariant c
              (fun a =>
                 Forall (fun r =>
                           0 <= rainfall_L r /\
                           0 <= greywater_L r <= daily_demand c /\
                           0 <= treated_L r <= rainfall_L r + greywater_L r)
                        (daily_log a)))
    with (days := Py.range1 (Z.of_nat k)) (a := init_acc c) (g := g)
    as (a & Hrun & Ha).
  - intros d rf a Hrf Ha. simpl. apply Forall_app. split; [exact Ha |].
    constructor; [| constructor]. simpl.
    pose proof (rainwater_nonneg c rf V Hrf) as Hrain.
    pose proof (greywater_nonneg c V) as Hgrey.
    pose proof (daily_demand_nonneg c V) as Hdem.
    assert (calculate_greywater (household_size c) (daily_water_use_L c)
              (greywater_fraction c) (greywater_recovery_rate c)
            <= daily_demand c) as Hgd.
    { unfold calculate_greywater. fold (daily_demand c).
      valid_fields V.
      pose proof (scale_within (daily_demand c) (greywater_fraction c) Hdem
                    (conj H1 H2)) as [Hf0 Hf1].
      pose proof (scale_within _ (greywater_recovery_rate c) Hf0
                    (conj H3 H4)) as [_ Hr1].
      lra. }
    set (rain := calculate_rainwater _ _ _) in *.
    set (grey := calculate_greywater _ _ _ _) in *.
    unfold apply_treatment.
    assert (0 <= rain + grey) as Hraw by lra.
    valid_fields V.
    pose proof (scale_within (rain + grey) (treatment_efficiency c) Hraw
                  (conj H5 H6)) as [He0 He1].
    repeat split; lra.
  - constructor.
  - rewrite range1_length, Nat2Z.id in Hrun. exists a. split; assumption.
Qed.

Lemma existsb_days (m : Z) (log : list DayRecord) :
  existsb (fun r => in_month_bucket m (day r)) log
    = existsb (in_month_bucket m) (map day log).
Proof.
  induction log as [| r log IH]; simpl; [reflexivity | rewrite IH; reflexivity].
Qed.

(** Month [m] has a record among the days 1..k exactly when [30 m < k]. *)
Lemma month_reached (m : Z) (k : nat) :
  (0 <= m)%Z ->
  existsb (in_month_bucket m) (map Z.of_nat (seq 1 k)) = (30 * m <? Z.of_nat k)%Z.
Proof.
  intros Hm. apply eq_true_iff_eq. rewrite existsb_exists, Z.ltb_lt. split.
  - intros (d & Hd & Hb). apply in_map_iff in Hd as (n & <- & Hn).
    apply in_seq in Hn. apply in_month_bucket_spec in Hb. lia.
  - intros Hlt. exists (30 * m + 1)%Z. split.
    + apply in_map_iff. exists (Z.to_nat (30 * m + 1)). split; [lia |].
      apply in_seq. lia.
    + apply in_month_bucket_spec. lia.
Qed.

Lemma months_reached (k n c : nat) :
  (forall i : nat, (30 * i < k)%nat <-> (i < c)%nat) ->
  List.filter (fun m => (30 * m <? Z.of_nat k)%Z) (map Z.of_nat (seq 0 n))
    = map Z.of_nat (seq 0 (Nat.min n c)).
Proof.
  intros Hc. induction n as [| n IH]; [reflexivity |].
  rewrite seq_S, map_app, List.filter_app, IH.
  cbn [map List.filter Nat.add].
  destruct (30 * Z.of_nat n <? Z.of_nat k)%Z eqn:E.
  - apply Z.ltb_lt in E. assert (n < c)%nat as Hn by (apply Hc; lia).
    replace (Nat.min (S n) c) with (S n) by lia.
    replace (Nat.min n c) with n by lia.
    rewrite seq_S, map_app. reflexivity.
  - apply Z.ltb_ge in E.
    assert (~ (n < c)%nat) as Hn by (rewrite <- Hc; lia).
    replace (Nat.min (S n) c) with (Nat.min n c) by lia.
    rewrite app_nil_r. reflexivity.
Qed.

(** X15.  The monthly report of a run of [k] days, for any configuration,
    has one line for each of the first [min(12, ceil(k/30))] months, in
    order: twelve lines from 331 days on, none for an empty log. *)
Theorem monthly_breakdown_line_count (c : Config) (k : nat) (g : gen_state) :
  exists a,
    state_after c k g = (Ok a, advance k g) /\
    map month_index (print_monthly_breakdown (daily_log a))
      = map Z.of_nat (seq 0 (Nat.min 12 ((k + 29) / 30))).
Proof.
  destruct (day_loop_invariant c (fun _ => True))
    with (days := Py.range1 (Z.of_nat k)) (a := init_acc c) (g := g)
    as (a & Hrun & _); [trivial | trivial |].
  pose proof (day_loop_log c _ _ _ _ _ Hrun) as Hlog. simpl in Hlog.
  unfold Py.range1 in Hlog. rewrite Nat2Z.id in Hlog.
  rewrite range1_length, Nat2Z.id in Hrun.
  exists a. split; [exact Hrun |].
  rewrite monthly_lines.
  rewrite <- (months_reached k 12 ((k + 29) / 30)).
  - apply filter_ext_in. intros m Hm. apply In_months in Hm.
    rewrite existsb_days, Hlog. apply month_reached. lia.
  - intros i. pose proof (Nat.div_mod_eq (k + 29) 30) as Hdiv.
    pose proof (Nat.mod_upper_bound (k + 29) 30). lia.
Qed.

End RunFacts.

(** ** Properties of the stored readings *)

Section StoreFacts.

(** How many of the three labels a row carries: one or none. *)
Lemma row_label_once (row : App.Row) :
  let hit l := if String.eqb (App.row_label row) l then 1%Z else 0%Z in
  (hit "Safe for Reuse"%string + hit "Needs Treatment"%string
   + hit "Unsafe"%string <= 1)%Z /\
  ((hit "Safe for Reuse"%string + hit "Needs Treatment"%string
    + hit "Unsafe"%string = 1)%Z <->
   In (App.row_label row)
      ["Safe for Reuse"%string; "Needs Treatment"%string; "Unsafe"%string]).
Proof.
  simpl.
  destruct (String.eqb (App.row_label row) "Safe for Reuse") eqn:E1;
    [apply String.eqb_eq in E1; rewrite E1; simpl; split; [lia | tauto] |].
  destruct (String.eqb (App.row_label row) "Needs Treatment") eqn:E2;
    [apply String.eqb_eq in E2; rewrite E2; simpl; split; [lia | tauto] |].
  destruct (String.eqb (App.row_label row) "Unsafe") eqn:E3;
    [apply String.eqb_eq in E3; rewrite E3; simpl; split; [lia | tauto] |].
  apply String.eqb_neq in E1, E2, E3.
  split; [lia |]. split; [lia |]. intros [H | [H | [H | []]]]; congruence.
Qed.

(** X17.  In the statistics of [/api/stats] the three label counts are not
    negative and add up to at most the number of readings, and to exactly
    that number when, and only when, every stored label is one of the
    three; in the figures of the dashboard the water reused never exceeds
    the water recovered. *)
Theorem label_counts_partition (db : list App.Row) :
  let s := Store.api_stats_counts db in
  (0 <= Store.safe_count s /\ 0 <= Store.treatment_count s /\
   0 <= Store.unsafe_count s)%Z /\
  (Store.safe_count s + Store.treatment_count s + Store.unsafe_count s
   <= Store.total s)%Z /\
  ((Store.safe_count s + Store.treatment_count s + Store.unsafe_count s
    = Store.total s)%Z <->
   Forall (fun row =>
             In (App.row_label row)
                ["Safe for Reuse"%string; "Needs Treatment"%string;
                 "Unsafe"%string]) db) /\
  (0 <= Store.water_reused (Store.dashboard_recovery db)
     <= Store.water_recovered (Store.dashboard_recovery db))%Z.
Proof.
  simpl.
  assert ((Store.count_label "Safe for Reuse" db
           + Store.count_label "Needs Treatment" db
           + Store.count_label "Unsafe" db <= Z.of_nat (length db))%Z /\
          ((Store.count_label "Safe for Reuse" db
            + Store.count_label "Needs Treatment" db
            + Store.count_label "Unsafe" db = Z.of_nat (length db))%Z <->
           Forall (fun row =>
                     In (App.row_label row)
                        ["Safe for Reuse"%string; "Needs Treatment"%string;
                         "Unsafe"%string]) db)) as [Hle Hiff].
  { induction db as [| row db [IHle IHiff]].
    - split; [reflexivity |]. split; [constructor | reflexivity].
    - pose proof (row_label_once row) as [H1 H2]. simpl in H1, H2.
      unfold Store.count_label in *. simpl.
      destruct (String.eqb (App.row_label row) "Safe for Reuse");
        destruct (String.eqb (App.row_label row) "Needs Treatment");
        destruct (String.eqb (App.row_label row) "Unsafe");
        simpl length; rewrite ?Nat2Z.inj_succ;
        (split; [lia |]); rewrite Forall_cons, <- IHiff, <- H2; lia. }
  assert (forall l, (0 <= Store.count_label l db)%Z) as Hpos
    by (intros l; unfold Store.count_label; lia).
  pose proof (Hpos "Safe for Reuse"%string).
  pose proof (Hpos "Needs Treatment"%string).
  pose proof (Hpos "Unsafe"%string).
  repeat split; try assumption; try apply Hiff; lia.
Qed.

End StoreFacts.

(** ** Properties of the labelling rule *)

Lemma within_spec lo x hi :
  Qle_bool lo x && Qle_bool x hi = true <-> lo <= x <= hi.
Proof. rewrite andb_true_iff, !Qle_bool_iff. tauto. Qed.

Lemma below_spec x hi : negb (Qle_bool hi x) = true <-> x < hi.
Proof.
  rewrite negb_true_iff. split.
  - intros H. apply Qnot_le_lt. intros Hle.
    apply Qle_bool_iff in Hle. congruence.
  - intros H. apply not_true_iff_false. intros Hle.
    apply Qle_bool_iff in Hle. lra.
Qed.

(** X18.  The labelling rule of the training data: a sample is labelled 0
    exactly in the safe region, 2 exactly outside the treatable region and
    1 exactly in the treatable region outside the safe one; the safe
    region lies inside the treatable one, so the three labels partition
    the samples and the order of the two tests decides nothing but the
    label of the safe samples. *)
Theorem sample_label_regions (ph turbidity temperature tds : Q) :
  (sample_label ph turbidity temperature tds = 0%Z <->
   safe_region ph turbidity temperature tds) /\
  (sample_label ph turbidity temperature tds = 1%Z <->
   treatable_region ph turbidity temperature tds /\
   ~ safe_region ph turbidity temperature tds) /\
  (sample_label ph turbidity temperature tds = 2%Z <->
   ~ treatable_region ph turbidity temperature tds) /\
  (safe_region ph turbidity temperature tds ->
   treatable_region ph turbidity temperature tds).
Proof.
  assert (Qle_bool (65 # 10) ph && Qle_bool ph (85 # 10)
          && negb (Qle_bool 10 turbidity)
          && (Qle_bool 15 temperature && Qle_bool temperature 30)
          && negb (Qle_bool 500 tds) = true
          <-> safe_region ph turbidity temperature tds) as Hs.
  { unfold safe_region.
    rewrite !andb_true_iff, !Qle_bool_iff, !below_spec. tauto. }
  assert (Qle_bool 4 ph && Qle_bool ph 10
          && negb (Qle_bool 50 turbidity)
          && (Qle_bool 5 temperature && Qle_bool temperature 40)
          && negb (Qle_bool 800 tds) = true
          <-> treatable_region ph turbidity temperature tds) as Ht.
  { unfold treatable_region.
    rewrite !andb_true_iff, !Qle_bool_iff, !below_spec. tauto. }
  assert (safe_region ph turbidity temperature tds ->
          treatable_region ph turbidity temperature tds) as Hin.
  { unfold safe_region, treatable_region.
    intros ([? ?] & ? & [? ?] & ?). repeat split; lra. }
  unfold sample_label.
  destruct (Qle_bool (65 # 10) ph && Qle_bool ph (85 # 10)
            && negb (Qle_bool 10 turbidity)
            && (Qle_bool 15 temperature && Qle_bool temperature 30)
            && negb (Qle_bool 500 tds)) eqn:Es;
    destruct (Qle_bool 4 ph && Qle_bool ph 10
              && negb (Qle_bool 50 turbidity)
              && (Qle_bool 5 temperature && Qle_bool temperature 40)
              && negb (Qle_bool 800 tds)) eqn:Et;
    rewrite <- ?Hs, <- ?Ht in *;
    repeat split; try discriminate; try tauto; try congruence;
    intros; try (exfalso; intuition congruence); intuition congruence.
Qed.

(** ** Further properties of the helpers and handlers *)

(** X19.  Which days use which month's factor: January's up to day 29
    (and for day 0 and negative days), month [m]'s for the thirty days
    [30(m-1) .. 30m-1] when [m] is 2 to 11, December's from day 330 on. *)
Theorem month_of_day_blocks (d m : Z) :
  month_of_day d = m <->
  ((m = 1 /\ d < 30) \/ (2 <= m <= 11 /\ 30 * (m - 1) <= d < 30 * m) \/
   (m = 12 /\ 330 <= d))%Z.
Proof. unfold month_of_day. Z.div_mod_to_equations. lia. Qed.

Section FrameFacts.

Variable classifier : App.Readings -> App.ModelResult.

Lemma read_inputs_frame (data : gmap string App.field_value) key v :
  ~ In key App.reading_keys ->
  App.read_inputs (<[key := v]> data) = App.read_inputs data.
Proof.
  intros Hkey. unfold App.read_inputs, App.get_or_zero.
  rewrite !lookup_insert_ne; [reflexivity | | | |];
    intros E; apply Hkey; rewrite E; simpl; tauto.
Qed.

(** X20.  A field of the request other than the four readings has no
    influence: with it added, changed or removed, both handlers answer and
    store the same. *)
Theorem other_fields_are_ignored
    (data : gmap string App.field_value) (key : string) (v : App.field_value) :
  ~ In key App.reading_keys ->
  App.api_predict classifier (App.JsonObject (<[key := v]> data)) =
    App.api_predict classifier (App.JsonObject data) /\
  App.api_predict classifier (App.JsonObject (delete key data)) =
    App.api_predict classifier (App.JsonObject data) /\
  forall now db,
    App.predict classifier (<[key := v]> data) now db =
      App.predict classifier data now db.
Proof.
  intros Hkey. unfold App.api_predict, App.predict.
  rewrite (read_inputs_frame data key v Hkey).
  split; [reflexivity |]. split; [| intros; reflexivity].
  assert (App.read_inputs (delete key data) = App.read_inputs data) as ->;
    [| reflexivity].
  unfold App.read_inputs, App.get_or_zero.
  rewrite !lookup_delete_ne; [reflexivity | | | |];
    intros E; apply Hkey; rewrite E; simpl; tauto.
Qed.

End FrameFacts.

(** ** The further properties at concrete runs *)

(** X10, witness: the first day of the scenario. *)
Lemma end_of_day_storage_bound_witness :
  valid_config scenario /\
  exists a,
    state_after (G := mean_generator) scenario 1 (gen_seed 42)
      = (Ok a, advance 1 (gen_seed 42)) /\
    Forall (fun r => storage_L r <= 40000 - 675 /\ deficit_L r <= 675)
           (daily_log a).
Proof.
  split; [exact scenario_valid |].
  destruct (end_of_day_storage_bound (G := mean_generator) scenario
              scenario_valid 1 (gen_seed 42)) as (a & Hrun & Hall).
  exists a. split; [exact Hrun |].
  eapply Forall_impl; [exact Hall |].
  intros r [Hs Hd]. split.
  - eapply Qle_trans; [exact Hs |]. vm_compute. discriminate.
  - eapply Qle_trans; [exact Hd |]. vm_compute. discriminate.
Defined.

(** X12, witness: the one day of the thirsty household, which covers an
    eighth of its demand. *)
Lemma self_sufficiency_is_capped_supply_rate_witness :
  exists res,
    fst (simulate (G := mean_generator) thirsty false (gen_seed 0)) = Ok res /\
    supply_rate_pct res == 125 # 10 /\
    self_sufficiency_pct res == Py.min 100 (supply_rate_pct res).
Proof.
  eexists. split; [vm_compute; reflexivity |].
  split; [reflexivity |].
  refine (proj1 (self_sufficiency_is_capped_supply_rate (G := mean_generator)
                   thirsty false (gen_seed 0) _ _)).
  vm_compute. reflexivity.
Defined.

(** X20, witness: a field ["comment"] added to the empty request. *)
Lemma other_fields_are_ignored_witness :
  ~ In "comment"%string App.reading_keys /\
  App.api_predict App.rule_classifier
    (App.JsonObject
       (<["comment"%string := App.NonNumeric App.ValueError]> App.empty_request))
  = App.api_predict App.rule_classifier (App.JsonObject App.empty_request).
Proof.
  assert (~ In "comment"%string App.reading_keys) as Hkey.
  { simpl. intros [H | [H | [H | [H | []]]]]; discriminate H. }
  split; [exact Hkey |].
  exact (proj1 (other_fields_are_ignored App.rule_classifier App.empty_request
                  "comment"%string (App.NonNumeric App.ValueError) Hkey)).
Defined.

(** X14, witness: the first day of the scenario. *)
Lemma treatment_only_loses_witness :
  valid_config scenario /\
  exists a,
    state_after (G := mean_generator) scenario 1 (gen_seed 42)
      = (Ok a, advance 1 (gen_seed 42)) /\
    Forall (fun r => treated_L r <= rainfall_L r + greywater_L r) (daily_log a).
Proof.
  split; [exact scenario_valid |].
  destruct (treatment_only_loses (G := mean_generator) scenario scenario_valid
              1 (gen_seed 42)) as (a & Hrun & Hall).
  exists a. split; [exact Hrun |].
  eapply Forall_impl; [exact Hall |].
  intros r (_ & _ & _ & Ht). exact Ht.
Defined.
